(** * goalbert: the Albert external-plugin protocol, embedded in Rocq

    [src/albert.go] holds three revisions of the package, one after the
    other:

    - lines 1-232: the [Plugin] interface, [DefaultPlugin], [Run] and
      [RunOp]  (module [RevA] below);
    - lines 233-423: the [HookSet] dispatcher with one default per
      operation and [handleQueryResult]  (module [RevB]);
    - lines 424-595: the first [HookSet] dispatcher  (module [RevC]).

    The data model ([Metadata], [QueryResult], [QueryItem], [QueryAction])
    is declared identically in the three revisions and is embedded once.

    Go strings are byte sequences: they are [string] here, one [ascii] per
    byte.  Go's [int] is [Z]; no arithmetic is done on it by this package.
    A Go slice is [option (list A)], [None] being the nil slice, because
    [encoding/json] prints a nil slice as [null] and an empty one as [[]]. *)

From Stdlib Require Import String Ascii List ZArith NArith Lia Bool.
Import ListNotations.
Open Scope string_scope.
Set Warnings "-register-all".

(* ================================================================= *)
(** ** Go values *)

Definition slice (A : Type) : Type := option (list A).

Definition len {A : Type} (s : slice A) : nat :=
  match s with
  | None => 0
  | Some l => length l
  end.

(** [f != nil] for a variable of function or interface type. *)
Definition non_nil {A : Type} (f : option A) : bool :=
  match f with
  | Some _ => true
  | None => false
  end.

(** The slice expression [s[lo:]].  Go panics ("slice bounds out of
    range") when [lo] exceeds [len(s)]; that is [None] here.  Slicing the
    nil slice at 0 gives nil, slicing a non-nil slice always gives a
    non-nil one. *)
Definition slice_from {A : Type} (s : slice A) (lo : nat) : option (slice A) :=
  if Nat.leb lo (len s) then
    Some (match s with
          | None => None
          | Some l => Some (skipn lo l)
          end)
  else None.

(** A (non-nil) value of the interface type [error], by dynamic type:
    what [fmt.Errorf] returns, or an [AlbertError] struct (lines 75-78),
    whose [Err] field is itself a possibly-nil [error]. *)
Inductive error : Type :=
| errorString (msg : string)
| dyn_AlbertError (Err : option error) (Code : Z).

(** [fmt.Errorf(format, s)] for the two formats of the package, each with
    one [%s] verb between single quotes. *)
Definition fmt_Errorf_quoted (prefix s : string) : error :=
  errorString (prefix ++ "'" ++ s ++ "'").

(** The method [Error()].  An [AlbertError] (lines 80-82) asks its [Err]
    for it; when [Err] is nil that call dereferences nil, which is [None]
    here. *)
Fixpoint Error (e : error) : option string :=
  match e with
  | errorString msg => Some msg
  | dyn_AlbertError (Some inner) _ => Error inner
  | dyn_AlbertError None _ => None
  end.

(* ================================================================= *)
(** ** The data model (lines 84-122) *)

Module QueryAction.
Record t : Type := {
    Name : string;
    Command : string;
    Arguments : slice string
  }.
End QueryAction.
Abbreviation QueryAction := QueryAction.t.

Module QueryItem.
Record t : Type := {
    ID : string;
    Name : string;
    Description : string;
    Completion : string;
    Icon : string;
    Actions : slice QueryAction
  }.
End QueryItem.
Abbreviation QueryItem := QueryItem.t.

Module QueryResult.
Record t : Type := { Items : slice QueryItem }.
(** The zero value [QueryResult{}]. *)
Definition zero : t := {| Items := None |}.
End QueryResult.
Abbreviation QueryResult := QueryResult.t.

Module Metadata.
Record t : Type := {
    IID : string;
    Name : string;
    Version : string;
    Author : string;
    Dependencies : slice string;
    Trigger : string
  }.
(** The zero value [Metadata{}]. *)
Definition zero : t :=
    {| IID := ""; Name := ""; Version := ""; Author := "";
       Dependencies := None; Trigger := "" |}.
End Metadata.
Abbreviation Metadata := Metadata.t.

(** [exec.Cmd], reduced to the two fields the package reads. *)
Module Cmd.
Record t : Type := { Path : string; Args : slice string }.
End Cmd.
Abbreviation Cmd := Cmd.t.

(** [exec.Command(name, arg...)], as the examples of albert_test.go call
    it: [Args] is [name] followed by [arg]; [Path] is [name], or the file
    [LookPath] found for a name without a separator.  [found] is the
    outcome of that lookup. *)
Definition exec_Command (found : option string) (name : string)
    (arg : list string) : Cmd :=
  {| Cmd.Path := match found with
                 | Some file => file
                 | None => name
                 end;
     Cmd.Args := Some (name :: arg) |}.

(* ================================================================= *)
(** ** The process: environment, standard output, log, exit *)

Inductive Severity : Type := INFO | WARNING | ERROR | FATAL.

Inductive LogArg : Type :=
| ArgInt (n : Z)
| ArgString (s : string)
| ArgError (e : error).

(** One [glog] call, kept unrendered: [glog.Warning(args...)] or
    [glog.Warningf(format, args...)]. *)
Record LogEntry : Type := {
  severity : Severity;
  format : option string;
  args : list LogArg
}.

(** The state of the plugin process that the package can reach.
    [pluginMetadata] is the package-level variable of [RevB] and [RevC];
    [RevA] has no such variable and never touches the field. *)
Record World : Type := {
  environ : list (string * string);
  stdout : string;
  glog : list LogEntry;
  pluginMetadata : Metadata
}.

Definition write_stdout (b : string) (w : World) : World :=
  {| environ := environ w; stdout := stdout w ++ b;
     glog := glog w; pluginMetadata := pluginMetadata w |}.

Definition log_entry (e : LogEntry) (w : World) : World :=
  {| environ := environ w; stdout := stdout w;
     glog := glog w ++ [e]; pluginMetadata := pluginMetadata w |}.

Definition set_pluginMetadata (m : Metadata) (w : World) : World :=
  {| environ := environ w; stdout := stdout w;
     glog := glog w; pluginMetadata := m |}.

(** How a call ends: it returns, or [os.Exit] ended the process, or the Go
    runtime panicked. *)
Inductive Outcome (A : Type) : Type :=
| Return (a : A)
| Exit (code : Z)
| Panic (msg : string).
Arguments Return {A} a.
Arguments Exit {A} code.
Arguments Panic {A} msg.

Definition M (A : Type) : Type := World -> World * Outcome A.

Definition ret {A : Type} (a : A) : M A := fun w => (w, Return a).

Definition bind {A B : Type} (m : M A) (k : A -> M B) : M B :=
  fun w =>
    match m w with
    | (w', Return a) => k a w'
    | (w', Exit c) => (w', Exit c)
    | (w', Panic s) => (w', Panic s)
    end.

Declare Scope go_scope.
Delimit Scope go_scope with go.
Notation "x <- m ;; k" := (bind m (fun x => k))
  (at level 61, m at next level, right associativity) : go_scope.
Notation "m ;;; k" := (bind m (fun _ => k))
  (at level 61, right associativity) : go_scope.
Open Scope go_scope.

Definition os_Exit {A : Type} (code : Z) : M A := fun w => (w, Exit code).

Definition panic {A : Type} (msg : string) : M A := fun w => (w, Panic msg).

Fixpoint lookup_env (key : string) (e : list (string * string)) : string :=
  match e with
  | [] => ""
  | (k, v) :: rest => if String.eqb key k then v else lookup_env key rest
  end.

(** [os.Getenv]: the value of the variable, the empty string if unset. *)
Definition os_Getenv (key : string) : M string :=
  fun w => (w, Return (lookup_env key (environ w))).

Definition glog_Warning (a : list LogArg) : M unit :=
  fun w => (log_entry {| severity := WARNING; format := None; args := a |} w,
            Return tt).

Definition glog_Warningf (f : string) (a : list LogArg) : M unit :=
  fun w => (log_entry {| severity := WARNING; format := Some f; args := a |} w,
            Return tt).

(** An [io.Writer]: [Write] returns the count written and an error, and,
    being arbitrary Go code, may do anything to the process. *)
Record Writer : Type := { Write : string -> M (Z * option error) }.

(** [os.Stdout], taken as a sink that accepts every write. *)
Definition os_Stdout : Writer :=
  {| Write := fun b w =>
       (write_stdout b w, Return (Z.of_nat (String.length b), None)) |}.

(** A call of [Write] through an interface value that may be nil. *)
Definition call_Write (o : option Writer) (b : string) : M (Z * option error) :=
  match o with
  | Some wr => Write wr b
  | None => panic "invalid memory address or nil pointer dereference"
  end.

(** [fmt.Print(s)] of one string: written to [os.Stdout], result dropped. *)
Definition fmt_Print (s : string) : M unit :=
  Write os_Stdout s ;;; ret tt.

(* ================================================================= *)
(** ** [encoding/json], as far as the package uses it

    The package calls [json.Marshal] and [json.NewEncoder(w).Encode] on
    [Metadata] and [QueryResult] only.  For such values (structs of
    strings and slices, every field tagged) the encoder cannot fail; it
    prints the fields in declaration order, compactly, a nil slice as
    [null], and a string through [appendString] with HTML escaping on
    (the default of both entry points). *)

Module JSON.

Inductive t : Type :=
| JNull
| JBool (b : bool)
| JNumber (literal : string)
| JString (s : string)
| JArray (elements : list t)
| JObject (members : list (string * t)).

Definition byte (c : ascii) : N := N_of_ascii c.

Definition quote : ascii := "034"%char.
Definition backslash : ascii := "092"%char.

(** [const hex = "0123456789abcdef"], indexed. *)
Definition hex (n : N) : ascii :=
  match String.get (N.to_nat n) "0123456789abcdef" with
  | Some c => c
  | None => "0"%char
  end.

(** [htmlSafeSet[b]] for an ASCII byte: printable, and none of the quote,
    the backslash, [<], [>] and [&]. *)
Definition htmlSafe (c : ascii) : bool :=
  let b := byte c in
  (32 <=? b)%N && (b <? 128)%N &&
  negb ((b =? 34) || (b =? 92) || (b =? 60) || (b =? 62) || (b =? 38))%N.

(** The [switch b] of [appendString] for an ASCII byte outside
    [htmlSafeSet], as of Go 1.22; earlier releases print backspace and
    form feed as [\u0008] and [\u000c], which read back the same. *)
Definition escape_byte (c : ascii) : string :=
  let b := byte c in
  if ((b =? 92) || (b =? 34))%N then String backslash (String c "")
  else if (b =? 8)%N then "\b"
  else if (b =? 12)%N then "\f"
  else if (b =? 10)%N then "\n"
  else if (b =? 13)%N then "\r"
  else if (b =? 9)%N then "\t"
  else "\u00" ++ String (hex (N.shiftr b 4)) (String (hex (N.land b 15)) "").

Definition RuneError : N := 65533.

(** [first[p0]] and [acceptRanges] of package [unicode/utf8] for a lead
    byte [p0 >= 0x80]: the length of the sequence and the range allowed
    for its second byte, [None] for an invalid lead byte. *)
Definition lead_byte (p0 : N) : option (nat * N * N) :=
  if (p0 <? 194)%N then None
  else if (p0 <? 224)%N then Some (2%nat, 128%N, 191%N)
  else if (p0 =? 224)%N then Some (3%nat, 160%N, 191%N)
  else if (p0 <? 237)%N then Some (3%nat, 128%N, 191%N)
  else if (p0 =? 237)%N then Some (3%nat, 128%N, 159%N)
  else if (p0 <? 240)%N then Some (3%nat, 128%N, 191%N)
  else if (p0 =? 240)%N then Some (4%nat, 144%N, 191%N)
  else if (p0 <? 244)%N then Some (4%nat, 128%N, 191%N)
  else if (p0 =? 244)%N then Some (4%nat, 128%N, 143%N)
  else None.

Definition continuation (b : N) : bool := (128 <=? b)%N && (b <=? 191)%N.

(** [utf8.DecodeRuneInString]: the first rune of [s] and its width in
    bytes; [(RuneError, 1)] for an invalid or truncated encoding. *)
Definition DecodeRuneInString (s : string) : N * nat :=
  match s with
  | EmptyString => (RuneError, 0)
  | String c0 s1 =>
    let p0 := byte c0 in
    if (p0 <? 128)%N then (p0, 1)
    else
      match lead_byte p0, s1 with
      | Some (sz, lo, hi), String c1 s2 =>
        let b1 := byte c1 in
        if ((b1 <? lo) || (hi <? b1))%N then (RuneError, 1)
        else if Nat.leb sz 2 then
          (N.lor (N.shiftl (N.land p0 31) 6) (N.land b1 63), 2)
        else
          match s2 with
          | String c2 s3 =>
            let b2 := byte c2 in
            if negb (continuation b2) then (RuneError, 1)
            else if Nat.leb sz 3 then
              (N.lor (N.lor (N.shiftl (N.land p0 15) 12)
                            (N.shiftl (N.land b1 63) 6))
                     (N.land b2 63), 3)
            else
              match s3 with
              | String c3 _ =>
                let b3 := byte c3 in
                if negb (continuation b3) then (RuneError, 1)
                else
                  (N.lor (N.lor (N.lor (N.shiftl (N.land p0 7) 18)
                                       (N.shiftl (N.land b1 63) 12))
                                (N.shiftl (N.land b2 63) 6))
                         (N.land b3 63), 4)
              | EmptyString => (RuneError, 1)
              end
          | EmptyString => (RuneError, 1)
          end
      | _, _ => (RuneError, 1)
      end
  end.

(** The loop of [appendString], byte by byte.  Go advances its index by
    the width of the rune it decoded and copies those bytes unchanged (or
    drops them after printing the escape of U+2028 and U+2029); here
    [pending] counts the bytes of the current rune still to pass, and
    [copy] says whether they are copied. *)
Fixpoint escape_from (pending : nat) (copy : bool) (s : string) : string :=
  match s with
  | EmptyString => EmptyString
  | String c0 rest =>
    match pending with
    | S k =>
      if copy then String c0 (escape_from k copy rest)
      else escape_from k copy rest
    | O =>
      if (byte c0 <? 128)%N then
        if htmlSafe c0 then String c0 (escape_from 0 true rest)
        else escape_byte c0 ++ escape_from 0 true rest
      else
        let (c, size) := DecodeRuneInString s in
        if (c =? RuneError)%N && Nat.eqb size 1 then
          "\ufffd" ++ escape_from 0 true rest
        else if ((c =? 8232) || (c =? 8233))%N then
          "\u202" ++ String (hex (N.land c 15))
                            (escape_from (Nat.pred size) false rest)
        else String c0 (escape_from (Nat.pred size) true rest)
    end
  end.

(** [appendString(dst, src, true)]: the JSON string literal of [src]. *)
Definition appendString (src : string) : string :=
  String quote (escape_from 0 true src ++ String quote "").

Fixpoint join (sep : string) (l : list string) : string :=
  match l with
  | [] => ""
  | [x] => x
  | x :: rest => x ++ sep ++ join sep rest
  end.

(** The compact text of a JSON value, as [Marshal] prints it. *)
Fixpoint print (j : t) : string :=
  match j with
  | JNull => "null"
  | JBool true => "true"
  | JBool false => "false"
  | JNumber lit => lit
  | JString s => appendString s
  | JArray l => "[" ++ join "," (map print l) ++ "]"
  | JObject m =>
    "{" ++ join "," (map (fun kv => appendString (fst kv) ++ ":" ++ print (snd kv)) m)
        ++ "}"
  end.

(** A slice field: [null] when nil, an array otherwise. *)
Definition of_slice {A : Type} (f : A -> t) (s : slice A) : t :=
  match s with
  | None => JNull
  | Some l => JArray (map f l)
  end.

End JSON.

Import JSON.

(** The struct tags of lines 86-122, field by field. *)
Definition QueryAction_json (a : QueryAction) : JSON.t :=
  JObject [("name", JString (QueryAction.Name a));
           ("command", JString (QueryAction.Command a));
           ("arguments", of_slice JString (QueryAction.Arguments a))].

Definition QueryItem_json (i : QueryItem) : JSON.t :=
  JObject [("id", JString (QueryItem.ID i));
           ("name", JString (QueryItem.Name i));
           ("description", JString (QueryItem.Description i));
           ("completion", JString (QueryItem.Completion i));
           ("icon", JString (QueryItem.Icon i));
           ("actions", of_slice QueryAction_json (QueryItem.Actions i))].

Definition QueryResult_json (r : QueryResult) : JSON.t :=
  JObject [("items", of_slice QueryItem_json (QueryResult.Items r))].

Definition Metadata_json (m : Metadata) : JSON.t :=
  JObject [("iid", JString (Metadata.IID m));
           ("name", JString (Metadata.Name m));
           ("version", JString (Metadata.Version m));
           ("author", JString (Metadata.Author m));
           ("dependencies", of_slice JString (Metadata.Dependencies m));
           ("trigger", JString (Metadata.Trigger m))].

(** [json.Marshal(v)]: the bytes and the error, which is nil for the two
    types of the package. *)
Definition json_Marshal (j : JSON.t) : string * option error :=
  (print j, None).

(** [json.NewEncoder(w).Encode(v)]: one [Write] of the text of [v]
    followed by a newline; the error of the write is returned. *)
Definition Encoder_Encode (w : option Writer) (j : JSON.t) : M (option error) :=
  match json_Marshal j with
  | (_, Some err) => ret (Some err)
  | (b, None) =>
    r <- call_Write w (b ++ String "010"%char "") ;;
    ret (snd r)
  end.

(** A call of a niladic hook stored in a variable that may hold nil. *)
Definition call_hook {A : Type} (f : option (M A)) : M A :=
  match f with
  | Some fn => fn
  | None => panic "invalid memory address or nil pointer dereference"
  end.

(* ================================================================= *)
(** ** Revision A (lines 1-232): [Plugin], [DefaultPlugin], [Run] *)

Module RevA.

Definition defaultProtocolVersion : string :=
  "org.albert.extension.external/v2.0".

Definition AlbertOp : Type := string.

Definition OpMetadata : AlbertOp := "METADATA".
Definition OpName : AlbertOp := "NAME".
Definition OpInitialize : AlbertOp := "INITIALIZE".
Definition OpFinalize : AlbertOp := "FINALIZE".
Definition OpSetupSession : AlbertOp := "SETUPSESSION".
Definition OpTeardownSession : AlbertOp := "TEARDOWNSESSION".
Definition OpQuery : AlbertOp := "QUERY".

(** Lines 110-112.  [cmd.Args[1:]] panics on an empty [Args]. *)
Definition NewQueryAction (name : string) (cmd : Cmd) : option QueryAction :=
  match slice_from (Cmd.Args cmd) 1 with
  | Some a =>
    Some {| QueryAction.Name := name;
            QueryAction.Command := Cmd.Path cmd;
            QueryAction.Arguments := a |}
  | None => None
  end.

(** The interface of lines 125-129. *)
Module Plugin.
Class t (P : Type) : Type := {
  Metadata : P -> M Metadata.t;
  Query : P -> string -> M (QueryResult * option error);
  RunOp : P -> AlbertOp -> M (option error)
}.
End Plugin.

(** Lines 132-144. *)
Definition Run {P : Type} `{Plugin.t P} (plugin : P) : M unit :=
  op <- os_Getenv "ALBERT_OP" ;;
  err <- Plugin.RunOp plugin op ;;
  match err with
  | Some e =>
    match e with
    | dyn_AlbertError _ code =>
      glog_Warningf "error (code=%d): %+v" [ArgInt code; ArgError e] ;;;
      os_Exit code
    | _ =>
      glog_Warningf "error: %+v" [ArgError e] ;;;
      os_Exit 255
    end
  | None => os_Exit 0
  end.

Module DefaultPlugin.

(** Lines 151-155.  [Output] and [QueryCallback] may hold nil. *)
Record t : Type := {
  Meta : Metadata.t;
  Output : option Writer;
  QueryCallback : option (string -> M (QueryResult * option error))
}.

(** Lines 174-176.  Like every method of the interface it is a call, so
    it lives in [M]; its body only reads the receiver. *)
Definition Metadata (p : t) : M Metadata.t := ret (Meta p).

(** Lines 183-191. *)
Definition Query (p : t) (query : string) : M (QueryResult * option error) :=
  match QueryCallback p with
  | Some callback => callback query
  | None =>
    ret (QueryResult.zero,
         Some (dyn_AlbertError
                 (Some (fmt_Errorf_quoted "no behavior defined for query " query))
                 255))
  end.

(** Lines 195-232. *)
Definition RunOp (p : t) (op : AlbertOp) : M (option error) :=
  if String.eqb op OpMetadata then
    m <- Metadata p ;;
    err <- Encoder_Encode (Output p) (Metadata_json m) ;;
    match err with
    | Some e => ret (Some e)
    | None => ret None
    end
  else if String.eqb op OpName then
    r <- call_Write (Output p) (Metadata.Name (Meta p)) ;;
    ret (snd r)
  else if String.eqb op OpInitialize then ret None
  else if String.eqb op OpFinalize then ret None
  else if String.eqb op OpSetupSession then ret None
  else if String.eqb op OpTeardownSession then ret None
  else if String.eqb op OpQuery then
    query <- os_Getenv "ALBERT_QUERY" ;;
    r <- Query p query ;;
    match snd r with
    | Some e => ret (Some e)
    | None =>
      err <- Encoder_Encode (Output p) (QueryResult_json (fst r)) ;;
      match err with
      | Some e => ret (Some e)
      | None => ret None
      end
    end
  else
    ret (Some (dyn_AlbertError
                 (Some (fmt_Errorf_quoted "unknown albert op " op))
                 255)).

End DefaultPlugin.

#[global] Instance DefaultPlugin_Plugin : Plugin.t DefaultPlugin.t := {
  Plugin.Metadata := DefaultPlugin.Metadata;
  Plugin.Query := DefaultPlugin.Query;
  Plugin.RunOp := DefaultPlugin.RunOp
}.

(** Lines 158-171. *)
Definition NewPlugin (name version author trigger : string)
    (qc : option (string -> M (QueryResult * option error))) : DefaultPlugin.t :=
  {| DefaultPlugin.Meta :=
       {| Metadata.IID := defaultProtocolVersion;
          Metadata.Name := name;
          Metadata.Version := version;
          Metadata.Author := author;
          Metadata.Trigger := trigger;
          Metadata.Dependencies := Some [] |};
     DefaultPlugin.Output := Some os_Stdout;
     DefaultPlugin.QueryCallback := qc |}.

End RevA.

(* ================================================================= *)
(** ** Revision B (lines 233-423): [HookSet] with per-operation defaults *)

Module RevB.

Definition protocolVersion : string := "org.albert.extension.external/v2.0".

(** Line 254: the initial value of the package variable. *)
Definition pluginMetadata_init : Metadata :=
  {| Metadata.IID := protocolVersion;
     Metadata.Name := ""; Metadata.Version := ""; Metadata.Author := "";
     Metadata.Dependencies := None; Metadata.Trigger := "" |}.

Definition get_pluginMetadata : M Metadata :=
  fun w => (w, Return (pluginMetadata w)).

Definition put_pluginMetadata (m : Metadata) : M unit :=
  fun w => (set_pluginMetadata m w, Return tt).

(** Lines 270-278.  Every hook may hold nil. *)
Module HookSet.
Record t : Type := {
  Metadata : option (M Z);
  Name : option (M Z);
  Initialize : option (M Z);
  Finalize : option (M Z);
  SetupSession : option (M Z);
  TeardownSession : option (M Z);
  Query : option (string -> M (QueryResult * Z))
}.
(** The zero value [HookSet{}]: nothing registered. *)
Definition zero : t :=
  {| Metadata := None; Name := None; Initialize := None; Finalize := None;
     SetupSession := None; TeardownSession := None; Query := None |}.
End HookSet.

(** Lines 380-382. *)
Definition NewQueryAction (name : string) (cmd : Cmd) : option QueryAction :=
  match slice_from (Cmd.Args cmd) 1 with
  | Some a =>
    Some {| QueryAction.Name := name;
            QueryAction.Command := Cmd.Path cmd;
            QueryAction.Arguments := a |}
  | None => None
  end.

(** Lines 385-389. *)
Definition SetInfo (name version author : string) : M unit :=
  m <- get_pluginMetadata ;;
  put_pluginMetadata
    {| Metadata.IID := Metadata.IID m;
       Metadata.Name := name;
       Metadata.Version := version;
       Metadata.Author := author;
       Metadata.Dependencies := Metadata.Dependencies m;
       Metadata.Trigger := Metadata.Trigger m |}.

(** Lines 393-395. *)
Definition SetTrigger (trigger : string) : M unit :=
  m <- get_pluginMetadata ;;
  put_pluginMetadata
    {| Metadata.IID := Metadata.IID m;
       Metadata.Name := Metadata.Name m;
       Metadata.Version := Metadata.Version m;
       Metadata.Author := Metadata.Author m;
       Metadata.Dependencies := Metadata.Dependencies m;
       Metadata.Trigger := trigger |}.

(** Lines 398-400. *)
Definition SetDependencies (deps : slice string) : M unit :=
  m <- get_pluginMetadata ;;
  put_pluginMetadata
    {| Metadata.IID := Metadata.IID m;
       Metadata.Name := Metadata.Name m;
       Metadata.Version := Metadata.Version m;
       Metadata.Author := Metadata.Author m;
       Metadata.Dependencies := deps;
       Metadata.Trigger := Metadata.Trigger m |}.

(** Lines 405-407, for a non-nil pointer. *)
Definition SetMetadata (m : Metadata) : M unit := put_pluginMetadata m.

(** Lines 409-413. *)
Definition defaultMetadata : M Z :=
  m <- get_pluginMetadata ;;
  let js := fst (json_Marshal (Metadata_json m)) in
  fmt_Print js ;;;
  ret 0%Z.

(** Lines 255-266. *)
Definition defaultHookSet : HookSet.t :=
  {| HookSet.Metadata := Some defaultMetadata;
     HookSet.Name :=
       Some (m <- get_pluginMetadata ;; fmt_Print (Metadata.Name m) ;;; ret 0%Z);
     HookSet.Initialize := Some (ret 0%Z);
     HookSet.Finalize := Some (ret 0%Z);
     HookSet.SetupSession := Some (ret 0%Z);
     HookSet.TeardownSession := Some (ret 0%Z);
     HookSet.Query :=
       Some (fun query =>
               glog_Warning [ArgString "Must implement Query behavior"] ;;;
               ret (QueryResult.zero, 255%Z)) |}.

(** Lines 415-423. *)
Definition handleQueryResult (rc : QueryResult * Z) : M unit :=
  let (res, code) := rc in
  match json_Marshal (QueryResult_json res) with
  | (_, Some err) => glog_Warning [ArgError err] ;;; os_Exit 255
  | (js, None) => fmt_Print js ;;; os_Exit code
  end.

(** [os.Exit(fn())] for the hook [own] when non-nil, else for the hook
    [dflt] of [defaultHookSet]: the body of each of the six niladic cases
    of [Start]. *)
Definition exit_with (own dflt : option (M Z)) : M unit :=
  match own with
  | Some fn => c <- fn ;; os_Exit c
  | None => c <- call_hook dflt ;; os_Exit c
  end.

(** A call of a query hook stored in a variable that may hold nil. *)
Definition call_query (f : option (string -> M (QueryResult * Z)))
    (query : string) : M (QueryResult * Z) :=
  match f with
  | Some fn => fn query
  | None => panic "invalid memory address or nil pointer dereference"
  end.

(** Lines 281-342.  The switch has no default case: for any other value
    of [ALBERT_OP] the method returns. *)
Definition Start (h : HookSet.t) : M unit :=
  op <- os_Getenv "ALBERT_OP" ;;
  if String.eqb op "METADATA" then
    exit_with (HookSet.Metadata h) (HookSet.Metadata defaultHookSet)
  else if String.eqb op "NAME" then
    exit_with (HookSet.Name h) (HookSet.Name defaultHookSet)
  else if String.eqb op "INITIALIZE" then
    exit_with (HookSet.Initialize h) (HookSet.Initialize defaultHookSet)
  else if String.eqb op "FINALIZE" then
    exit_with (HookSet.Finalize h) (HookSet.Finalize defaultHookSet)
  else if String.eqb op "SETUPSESSION" then
    exit_with (HookSet.SetupSession h) (HookSet.SetupSession defaultHookSet)
  else if String.eqb op "TEARDOWNSESSION" then
    exit_with (HookSet.TeardownSession h) (HookSet.TeardownSession defaultHookSet)
  else if String.eqb op "QUERY" then
    query <- os_Getenv "ALBERT_QUERY" ;;
    match HookSet.Query h with
    | Some fn => rc <- fn query ;; handleQueryResult rc
    | None => rc <- call_query (HookSet.Query defaultHookSet) query ;;
              handleQueryResult rc
    end
  else ret tt.

End RevB.

(* ================================================================= *)
(** ** Revision C (lines 424-595): the first [HookSet] dispatcher *)

Module RevC.

Definition protocolVersion : string := "org.albert.extension.external/v2.0".

(** Line 438: [Metadata{}]; this revision never stores [protocolVersion]. *)
Definition pluginMetadata_init : Metadata := Metadata.zero.

(** Lines 454-462. *)
Module HookSet.
Record t : Type := {
  Metadata : option (M Z);
  Name : option (M Z);
  Initialize : option (M Z);
  Finalize : option (M Z);
  Setupsession : option (M Z);
  Teardownsession : option (M Z);
  Query : option (string -> M (QueryResult * Z))
}.
Definition zero : t :=
  {| Metadata := None; Name := None; Initialize := None; Finalize := None;
     Setupsession := None; Teardownsession := None; Query := None |}.
End HookSet.

(** Lines 562-564: [cmd.Args] is stored whole. *)
Definition NewQueryAction (name : string) (cmd : Cmd) : QueryAction :=
  {| QueryAction.Name := name;
     QueryAction.Command := Cmd.Path cmd;
     QueryAction.Arguments := Cmd.Args cmd |}.

(** Lines 591-595. *)
Definition defaultMetadata : M Z :=
  m <- RevB.get_pluginMetadata ;;
  let js := fst (json_Marshal (Metadata_json m)) in
  fmt_Print js ;;;
  ret 0%Z.

(** Lines 439-450. *)
Definition defaultHookSet : HookSet.t :=
  {| HookSet.Metadata := Some defaultMetadata;
     HookSet.Name :=
       Some (m <- RevB.get_pluginMetadata ;;
             fmt_Print (Metadata.Name m) ;;; ret 0%Z);
     HookSet.Initialize := Some (ret 0%Z);
     HookSet.Finalize := Some (ret 0%Z);
     HookSet.Setupsession := Some (ret 0%Z);
     HookSet.Teardownsession := Some (ret 0%Z);
     HookSet.Query :=
       Some (fun query =>
               glog_Warning [ArgString "Must implement Query behavior"] ;;;
               ret (QueryResult.zero, 255%Z)) |}.

(** Lines 465-524.  Every fallback calls [defaultHookSet.Metadata].  In
    the QUERY case the source calls the registered hook with no argument
    and passes its two results to [os.Exit]: Go's type checker rejects
    that call, so the branch has no behaviour to embed and is a panic
    here; nothing below depends on it. *)
Definition Start (h : HookSet.t) : M unit :=
  op <- os_Getenv "ALBERT_OP" ;;
  if String.eqb op "METADATA" then
    RevB.exit_with (HookSet.Metadata h) (HookSet.Metadata defaultHookSet)
  else if String.eqb op "NAME" then
    RevB.exit_with (HookSet.Name h) (HookSet.Metadata defaultHookSet)
  else if String.eqb op "INITIALIZE" then
    RevB.exit_with (HookSet.Initialize h) (HookSet.Metadata defaultHookSet)
  else if String.eqb op "FINALIZE" then
    RevB.exit_with (HookSet.Finalize h) (HookSet.Metadata defaultHookSet)
  else if String.eqb op "SETUPSESSION" then
    RevB.exit_with (HookSet.Setupsession h) (HookSet.Metadata defaultHookSet)
  else if String.eqb op "TEARDOWNSESSION" then
    RevB.exit_with (HookSet.Teardownsession h) (HookSet.Metadata defaultHookSet)
  else if String.eqb op "QUERY" then
    match HookSet.Query h with
    | Some _ => panic "ill-typed call of the Query hook"
    | None => c <- call_hook (HookSet.Metadata defaultHookSet) ;; os_Exit c
    end
  else ret tt.

(** Lines 567-571. *)
Definition SetInfo (name version author : string) : M unit :=
  m <- RevB.get_pluginMetadata ;;
  RevB.put_pluginMetadata
    {| Metadata.IID := Metadata.IID m;
       Metadata.Name := name;
       Metadata.Version := version;
       Metadata.Author := author;
       Metadata.Dependencies := Metadata.Dependencies m;
       Metadata.Trigger := Metadata.Trigger m |}.

(** Lines 575-577. *)
Definition SetTrigger (trigger : string) : M unit :=
  m <- RevB.get_pluginMetadata ;;
  RevB.put_pluginMetadata
    {| Metadata.IID := Metadata.IID m;
       Metadata.Name := Metadata.Name m;
       Metadata.Version := Metadata.Version m;
       Metadata.Author := Metadata.Author m;
       Metadata.Dependencies := Metadata.Dependencies m;
       Metadata.Trigger := trigger |}.

(** Lines 580-582. *)
Definition SetDependencies (deps : slice string) : M unit :=
  m <- RevB.get_pluginMetadata ;;
  RevB.put_pluginMetadata
    {| Metadata.IID := Metadata.IID m;
       Metadata.Name := Metadata.Name m;
       Metadata.Version := Metadata.Version m;
       Metadata.Author := Metadata.Author m;
       Metadata.Dependencies := deps;
       Metadata.Trigger := Metadata.Trigger m |}.

(** Lines 587-589, for a non-nil pointer. *)
Definition SetMetadata (m : Metadata) : M unit := RevB.put_pluginMetadata m.

End RevC.

(* ================================================================= *)
(** ** A JSON reader

    The package only writes JSON; the launcher reads it.  To state what
    a reader gets back, here is one that follows RFC 8259: blanks between
    tokens, the three literals, numbers, strings with every escape
    (surrogate pairs joined, a lone surrogate read as U+FFFD as Go's
    decoder does), arrays and objects, nothing but blanks after the
    value.  Recursion on nested values is bounded by [fuel]; [read]
    supplies the length of the text, which is enough for every text the
    encoder writes ([size_le_length] below). *)

Module JSONReader.

Definition is_ws (c : ascii) : bool :=
  let b := byte c in ((b =? 32) || (b =? 9) || (b =? 10) || (b =? 13))%N.

Fixpoint skip_ws (s : string) : string :=
  match s with
  | EmptyString => EmptyString
  | String c rest => if is_ws c then skip_ws rest else s
  end.

Definition hex_val (c : ascii) : option N :=
  let b := byte c in
  if ((48 <=? b) && (b <=? 57))%N then Some (b - 48)%N
  else if ((97 <=? b) && (b <=? 102))%N then Some (b - 87)%N
  else if ((65 <=? b) && (b <=? 70))%N then Some (b - 55)%N
  else None.

Definition hex4 (h1 h2 h3 h4 : ascii) : option N :=
  match hex_val h1, hex_val h2, hex_val h3, hex_val h4 with
  | Some a, Some b, Some c, Some d => Some (((a * 16 + b) * 16 + c) * 16 + d)%N
  | _, _, _, _ => None
  end.

Definition chr (n : N) : ascii := ascii_of_N n.

(** The UTF-8 encoding of a code point ([utf8.EncodeRune]); surrogates
    and values past U+10FFFF are written as U+FFFD. *)
Definition utf8_encode (cp : N) : string :=
  let replacement := String (chr 239) (String (chr 191) (String (chr 189) "")) in
  if (cp <? 128)%N then String (chr cp) ""
  else if (cp <? 2048)%N then
    String (chr (N.lor 192 (N.shiftr cp 6)))
           (String (chr (N.lor 128 (N.land cp 63))) "")
  else if ((55296 <=? cp) && (cp <=? 57343))%N then replacement
  else if (cp <? 65536)%N then
    String (chr (N.lor 224 (N.shiftr cp 12)))
           (String (chr (N.lor 128 (N.land (N.shiftr cp 6) 63)))
                   (String (chr (N.lor 128 (N.land cp 63))) ""))
  else if (cp <=? 1114111)%N then
    String (chr (N.lor 240 (N.shiftr cp 18)))
           (String (chr (N.lor 128 (N.land (N.shiftr cp 12) 63)))
                   (String (chr (N.lor 128 (N.land (N.shiftr cp 6) 63)))
                           (String (chr (N.lor 128 (N.land cp 63))) "")))
  else replacement.

Definition is_high_surrogate (cp : N) : bool :=
  ((55296 <=? cp) && (cp <=? 56319))%N.

Definition is_low_surrogate (cp : N) : bool :=
  ((56320 <=? cp) && (cp <=? 57343))%N.

Definition join_surrogates (hi lo : N) : N :=
  (65536 + (hi - 55296) * 1024 + (lo - 56320))%N.

(** The character an escape of two characters stands for. *)
Definition simple_escape (e : ascii) : option ascii :=
  let b := byte e in
  if ((b =? 34) || (b =? 92) || (b =? 47))%N then Some e
  else if (b =? 98)%N then Some (chr 8)
  else if (b =? 102)%N then Some (chr 12)
  else if (b =? 110)%N then Some (chr 10)
  else if (b =? 114)%N then Some (chr 13)
  else if (b =? 116)%N then Some (chr 9)
  else None.

Definition prepend (p : string) (r : option (string * string))
  : option (string * string) :=
  match r with
  | Some (s, rest) => Some (p ++ s, rest)
  | None => None
  end.

(** The characters of a string literal after its opening quote, up to
    and past the closing one: the bytes they denote and the rest of the
    text. *)
Fixpoint read_chars (s : string) : option (string * string) :=
  match s with
  | EmptyString => None
  | String c r =>
    if Ascii.eqb c quote then Some ("", r)
    else if Ascii.eqb c backslash then
      match r with
      | EmptyString => None
      | String e r1 =>
        match simple_escape e with
        | Some ch => prepend (String ch "") (read_chars r1)
        | None =>
          if Ascii.eqb e "u"%char then
            match r1 with
            | String h1 (String h2 (String h3 (String h4 r2))) =>
              match hex4 h1 h2 h3 h4 with
              | None => None
              | Some cp =>
                if is_high_surrogate cp then
                  match r2 with
                  | String b (String u (String l1 (String l2 (String l3 (String l4 r3))))) =>
                    match (if Ascii.eqb b backslash && Ascii.eqb u "u"%char
                           then hex4 l1 l2 l3 l4 else None) with
                    | Some lo =>
                      if is_low_surrogate lo
                      then prepend (utf8_encode (join_surrogates cp lo)) (read_chars r3)
                      else prepend (utf8_encode cp) (read_chars r2)
                    | None => prepend (utf8_encode cp) (read_chars r2)
                    end
                  | _ => prepend (utf8_encode cp) (read_chars r2)
                  end
                else prepend (utf8_encode cp) (read_chars r2)
              end
            | _ => None
            end
          else None
        end
      end
    else if (byte c <? 32)%N then None
    else prepend (String c "") (read_chars r)
  end.

Definition is_digit (c : ascii) : bool :=
  let b := byte c in ((48 <=? b) && (b <=? 57))%N.

Fixpoint span_digits (s : string) : string * string :=
  match s with
  | EmptyString => ("", "")
  | String c rest =>
    if is_digit c then
      let (d, rest') := span_digits rest in (String c d, rest')
    else ("", s)
  end.

(** One or more digits. *)
Definition read_digits (s : string) : option (string * string) :=
  match span_digits s with
  | (EmptyString, _) => None
  | (d, rest) => Some (d, rest)
  end.

(** A number, kept as its literal: sign, integer part without a leading
    zero, fraction, exponent. *)
Definition read_number (s : string) : option (string * string) :=
  let (sign, s1) :=
    match s with
    | String c r => if Ascii.eqb c "-"%char then ("-", r) else ("", s)
    | EmptyString => ("", s)
    end in
  match (match s1 with
         | String c r => if Ascii.eqb c "0"%char then Some ("0", r)
                         else read_digits s1
         | EmptyString => None
         end) with
  | None => None
  | Some (int, s2) =>
    match (match s2 with
           | String c r =>
             if Ascii.eqb c "."%char then
               match read_digits r with
               | Some (d, r') => Some ("." ++ d, r')
               | None => None
               end
             else Some ("", s2)
           | EmptyString => Some ("", s2)
           end) with
    | None => None
    | Some (frac, s3) =>
      match (match s3 with
             | String c r =>
               if Ascii.eqb c "e"%char || Ascii.eqb c "E"%char then
                 let (sg, r1) :=
                   match r with
                   | String x r' =>
                     if Ascii.eqb x "+"%char || Ascii.eqb x "-"%char
                     then (String x "", r') else ("", r)
                   | EmptyString => ("", r)
                   end in
                 match read_digits r1 with
                 | Some (d, r') => Some (String c (sg ++ d), r')
                 | None => None
                 end
               else Some ("", s3)
             | EmptyString => Some ("", s3)
             end) with
      | None => None
      | Some (ex, s4) => Some (sign ++ int ++ frac ++ ex, s4)
      end
    end
  end.

Fixpoint strip_prefix (p s : string) : option string :=
  match p, s with
  | EmptyString, _ => Some s
  | String a p', String b s' => if Ascii.eqb a b then strip_prefix p' s' else None
  | _, EmptyString => None
  end.

Definition read_literal (p : string) (v : JSON.t) (s : string)
  : option (JSON.t * string) :=
  match strip_prefix p s with
  | Some rest => Some (v, rest)
  | None => None
  end.

(** One value, after the blanks before it; the elements of an array
    after its bracket; the members of an object after its brace. *)
Fixpoint read_value (fuel : nat) (s : string) : option (JSON.t * string) :=
  match fuel with
  | O => None
  | S f =>
    match skip_ws s with
    | EmptyString => None
    | String c r =>
      if Ascii.eqb c quote then
        match read_chars r with
        | Some (str, rest) => Some (JString str, rest)
        | None => None
        end
      else if Ascii.eqb c "["%char then
        match skip_ws r with
        | EmptyString => None
        | String c' r' =>
          if Ascii.eqb c' "]"%char then Some (JArray [], r')
          else
            match read_elements f r with
            | Some (l, rest) => Some (JArray l, rest)
            | None => None
            end
        end
      else if Ascii.eqb c "{"%char then
        match skip_ws r with
        | EmptyString => None
        | String c' r' =>
          if Ascii.eqb c' "}"%char then Some (JObject [], r')
          else
            match read_members f r with
            | Some (m, rest) => Some (JObject m, rest)
            | None => None
            end
        end
      else if Ascii.eqb c "n"%char then read_literal "ull" JNull r
      else if Ascii.eqb c "t"%char then read_literal "rue" (JBool true) r
      else if Ascii.eqb c "f"%char then read_literal "alse" (JBool false) r
      else
        match read_number (String c r) with
        | Some (lit, rest) => Some (JNumber lit, rest)
        | None => None
        end
    end
  end
with read_elements (fuel : nat) (s : string) : option (list JSON.t * string) :=
  match fuel with
  | O => None
  | S f =>
    match read_value f s with
    | None => None
    | Some (v, rest) =>
      match skip_ws rest with
      | EmptyString => None
      | String c r =>
        if Ascii.eqb c ","%char then
          match read_elements f r with
          | Some (l, rest') => Some (v :: l, rest')
          | None => None
          end
        else if Ascii.eqb c "]"%char then Some ([v], r)
        else None
      end
    end
  end
with read_members (fuel : nat) (s : string)
  : option (list (string * JSON.t) * string) :=
  match fuel with
  | O => None
  | S f =>
    match skip_ws s with
    | EmptyString => None
    | String q r0 =>
      if Ascii.eqb q quote then
        match read_chars r0 with
        | None => None
        | Some (k, rest0) =>
          match skip_ws rest0 with
          | EmptyString => None
          | String colon r1 =>
            if Ascii.eqb colon ":"%char then
              match read_value f r1 with
              | None => None
              | Some (v, rest) =>
                match skip_ws rest with
                | EmptyString => None
                | String c r =>
                  if Ascii.eqb c ","%char then
                    match read_members f r with
                    | Some (m, rest') => Some ((k, v) :: m, rest')
                    | None => None
                    end
                  else if Ascii.eqb c "}"%char then Some ([(k, v)], r)
                  else None
                end
              end
            else None
          end
        end
      else None
    end
  end.

(** A whole text: one value and nothing but blanks after it. *)
Definition read (s : string) : option JSON.t :=
  match read_value (String.length s) s with
  | Some (v, rest) =>
    match skip_ws rest with
    | EmptyString => Some v
    | String _ _ => None
    end
  | None => None
  end.

(** The first member of an object with a given name. *)
Fixpoint member (k : string) (m : list (string * JSON.t)) : option JSON.t :=
  match m with
  | [] => None
  | (k', v) :: rest => if String.eqb k k' then Some v else member k rest
  end.

(** A string field: a string, or the zero value when the member is
    absent or [null]. *)
Definition as_string (j : option JSON.t) : option string :=
  match j with
  | Some (JString s) => Some s
  | Some JNull | None => Some ""
  | Some _ => None
  end.

Fixpoint traverse {A : Type} (f : JSON.t -> option A) (l : list JSON.t)
  : option (list A) :=
  match l with
  | [] => Some []
  | j :: rest =>
    match f j, traverse f rest with
    | Some a, Some l' => Some (a :: l')
    | _, _ => None
    end
  end.

(** A slice field: an array, element by element, or the nil slice when
    the member is absent or [null]. *)
Definition as_slice {A : Type} (f : JSON.t -> option A) (j : option JSON.t)
  : option (slice A) :=
  match j with
  | Some (JArray l) =>
    match traverse f l with
    | Some l' => Some (Some l')
    | None => None
    end
  | Some JNull | None => Some None
  | Some _ => None
  end.

End JSONReader.

Import JSONReader.

(** The data model read back from a JSON value, member by member under
    the names of the struct tags. *)
Definition QueryAction_of_json (j : JSON.t) : option QueryAction :=
  match j with
  | JObject m =>
    match as_string (member "name" m), as_string (member "command" m),
          as_slice (fun e => as_string (Some e)) (member "arguments" m) with
    | Some n, Some c, Some a =>
      Some {| QueryAction.Name := n; QueryAction.Command := c;
              QueryAction.Arguments := a |}
    | _, _, _ => None
    end
  | _ => None
  end.

Definition QueryItem_of_json (j : JSON.t) : option QueryItem :=
  match j with
  | JObject m =>
    match as_string (member "id" m), as_string (member "name" m),
          as_string (member "description" m),
          as_string (member "completion" m), as_string (member "icon" m),
          as_slice QueryAction_of_json (member "actions" m) with
    | Some i, Some n, Some d, Some c, Some ic, Some a =>
      Some {| QueryItem.ID := i; QueryItem.Name := n;
              QueryItem.Description := d; QueryItem.Completion := c;
              QueryItem.Icon := ic; QueryItem.Actions := a |}
    | _, _, _, _, _, _ => None
    end
  | _ => None
  end.

Definition QueryResult_of_json (j : JSON.t) : option QueryResult :=
  match j with
  | JObject m =>
    match as_slice QueryItem_of_json (member "items" m) with
    | Some i => Some {| QueryResult.Items := i |}
    | None => None
    end
  | _ => None
  end.

(** Reading a [QueryResult] from the wire. *)
Definition decode_QueryResult (text : string) : option QueryResult :=
  match read text with
  | Some j => QueryResult_of_json j
  | None => None
  end.

(** [utf8.ValidString], with the same bookkeeping as [escape_from]. *)
Fixpoint valid_from (pending : nat) (s : string) : bool :=
  match s with
  | EmptyString => true
  | String c0 rest =>
    match pending with
    | S k => valid_from k rest
    | O =>
      if (byte c0 <? 128)%N then valid_from 0 rest
      else
        let (c, size) := DecodeRuneInString s in
        if (c =? RuneError)%N && Nat.eqb size 1 then false
        else valid_from (Nat.pred size) rest
    end
  end.

Definition ValidString (s : string) : bool := valid_from 0 s.

Definition valid_slice {A : Type} (f : A -> bool) (s : slice A) : bool :=
  match s with
  | None => true
  | Some l => forallb f l
  end.

(** Every string of the value is valid UTF-8. *)
Definition valid_QueryAction (a : QueryAction) : bool :=
  ValidString (QueryAction.Name a) && ValidString (QueryAction.Command a) &&
  valid_slice ValidString (QueryAction.Arguments a).

Definition valid_QueryItem (i : QueryItem) : bool :=
  ValidString (QueryItem.ID i) && ValidString (QueryItem.Name i) &&
  ValidString (QueryItem.Description i) && ValidString (QueryItem.Completion i) &&
  ValidString (QueryItem.Icon i) &&
  valid_slice valid_QueryAction (QueryItem.Actions i).

Definition valid_QueryResult (r : QueryResult) : bool :=
  valid_slice valid_QueryItem (QueryResult.Items r).

(** [Metadata] read back from a JSON value, under the names of the
    struct tags of lines 115-122. *)
Definition Metadata_of_json (j : JSON.t) : option Metadata :=
  match j with
  | JObject m =>
    match as_string (member "iid" m), as_string (member "name" m),
          as_string (member "version" m), as_string (member "author" m),
          as_slice (fun e => as_string (Some e)) (member "dependencies" m),
          as_string (member "trigger" m) with
    | Some i, Some n, Some v, Some a, Some d, Some t =>
      Some {| Metadata.IID := i; Metadata.Name := n; Metadata.Version := v;
              Metadata.Author := a; Metadata.Dependencies := d;
              Metadata.Trigger := t |}
    | _, _, _, _, _, _ => None
    end
  | _ => None
  end.

(** Reading a [Metadata] from the wire. *)
Definition decode_Metadata (text : string) : option Metadata :=
  match read text with
  | Some j => Metadata_of_json j
  | None => None
  end.

Definition valid_Metadata (m : Metadata) : bool :=
  ValidString (Metadata.IID m) && ValidString (Metadata.Name m) &&
  ValidString (Metadata.Version m) && ValidString (Metadata.Author m) &&
  valid_slice ValidString (Metadata.Dependencies m) &&
  ValidString (Metadata.Trigger m).

(* ================================================================= *)
(** ** Vocabulary of the statements *)

(** [dq s] is [s] with every apostrophe turned into a double quote, so
    that the JSON texts below can be read as written. *)
Fixpoint dq (s : string) : string :=
  match s with
  | EmptyString => EmptyString
  | String c rest =>
    String (if Ascii.eqb c "'"%char then JSON.quote else c) (dq rest)
  end.

Definition newline : string := String "010"%char "".

(** The value of [ALBERT_OP] in a world. *)
Definition selector (w : World) : string := lookup_env "ALBERT_OP" (environ w).

(** The value of [ALBERT_QUERY] in a world. *)
Definition query_text (w : World) : string :=
  lookup_env "ALBERT_QUERY" (environ w).

(** The seven operations of the protocol. *)
Inductive Op : Type :=
| METADATA | NAME | INITIALIZE | FINALIZE | SETUPSESSION | TEARDOWNSESSION
| QUERY.

Definition Op_name (o : Op) : string :=
  match o with
  | METADATA => "METADATA"
  | NAME => "NAME"
  | INITIALIZE => "INITIALIZE"
  | FINALIZE => "FINALIZE"
  | SETUPSESSION => "SETUPSESSION"
  | TEARDOWNSESSION => "TEARDOWNSESSION"
  | QUERY => "QUERY"
  end.

Definition recognized : list string :=
  map Op_name
      [METADATA; NAME; INITIALIZE; FINALIZE; SETUPSESSION; TEARDOWNSESSION; QUERY].

(** A world in which the launcher asked for [op], nothing printed yet. *)
Definition launched (op query : string) (m : Metadata) : World :=
  {| environ := [("ALBERT_OP", op); ("ALBERT_QUERY", query)];
     stdout := ""; glog := []; pluginMetadata := m |}.

(** The warning of [defaultHookSet.Query] (lines 263 and 447). *)
Definition must_implement : LogEntry :=
  {| severity := WARNING; format := None;
     args := [ArgString "Must implement Query behavior"] |}.

(** The command of the package's own example (albert_test.go, line 6),
    with the path [exec.Command] would resolve. *)
Definition chrome : Cmd :=
  {| Cmd.Path := "/usr/bin/google-chrome-stable";
     Cmd.Args := Some ["google-chrome-stable"; "www.facebook.com"] |}.

(** The wire text of the metadata of the METADATA scenario. *)
Definition demo_text : string :=
  dq "{'iid':'org.albert.extension.external/v2.0','name':'demo','version':'0.1','author':'a','dependencies':[],'trigger':'t'}".

(** Whether revision B's [HookSet] holds a hook for an operation. *)
Definition RevB_registered (h : RevB.HookSet.t) (o : Op) : bool :=
  match o with
  | METADATA => non_nil (RevB.HookSet.Metadata h)
  | NAME => non_nil (RevB.HookSet.Name h)
  | INITIALIZE => non_nil (RevB.HookSet.Initialize h)
  | FINALIZE => non_nil (RevB.HookSet.Finalize h)
  | SETUPSESSION => non_nil (RevB.HookSet.SetupSession h)
  | TEARDOWNSESSION => non_nil (RevB.HookSet.TeardownSession h)
  | QUERY => non_nil (RevB.HookSet.Query h)
  end.

(** Whether revision C's [HookSet] holds a hook for an operation. *)
Definition RevC_registered (h : RevC.HookSet.t) (o : Op) : bool :=
  match o with
  | METADATA => non_nil (RevC.HookSet.Metadata h)
  | NAME => non_nil (RevC.HookSet.Name h)
  | INITIALIZE => non_nil (RevC.HookSet.Initialize h)
  | FINALIZE => non_nil (RevC.HookSet.Finalize h)
  | SETUPSESSION => non_nil (RevC.HookSet.Setupsession h)
  | TEARDOWNSESSION => non_nil (RevC.HookSet.Teardownsession h)
  | QUERY => non_nil (RevC.HookSet.Query h)
  end.

(** What the built-in default of an operation does to the process, read
    off the entries of [defaultHookSet] (lines 255-266) and
    [handleQueryResult] (lines 415-423): the final world and the exit. *)
Definition own_default (o : Op) (w : World) : World * Outcome unit :=
  match o with
  | METADATA =>
    (write_stdout (print (Metadata_json (pluginMetadata w))) w, Exit 0%Z)
  | NAME => (write_stdout (Metadata.Name (pluginMetadata w)) w, Exit 0%Z)
  | INITIALIZE | FINALIZE | SETUPSESSION | TEARDOWNSESSION => (w, Exit 0%Z)
  | QUERY =>
    (write_stdout (dq "{'items':null}") (log_entry must_implement w),
     Exit 255%Z)
  end.

(** The metadata of the METADATA scenario, as revision B holds it after
    [SetInfo], [SetTrigger] and [SetDependencies]. *)
Definition demo_metadata : Metadata :=
  {| Metadata.IID := RevB.protocolVersion;
     Metadata.Name := "demo"; Metadata.Version := "0.1";
     Metadata.Author := "a"; Metadata.Dependencies := Some [];
     Metadata.Trigger := "t" |}.

(** A call that leaves the package variable [pluginMetadata] as it
    found it, however it ends. *)
Definition keeps_pluginMetadata {A : Type} (m : M A) : Prop :=
  forall w : World, pluginMetadata (fst (m w)) = pluginMetadata w.

(** Every hook registered in a [HookSet] of revision B keeps it. *)
Definition hooks_keep (h : RevB.HookSet.t) : Prop :=
  (forall fn, In (Some fn)
                 [RevB.HookSet.Metadata h; RevB.HookSet.Name h;
                  RevB.HookSet.Initialize h; RevB.HookSet.Finalize h;
                  RevB.HookSet.SetupSession h; RevB.HookSet.TeardownSession h] ->
              keeps_pluginMetadata fn) /\
  (forall fn query, RevB.HookSet.Query h = Some fn ->
                    keeps_pluginMetadata (fn query)).

(** The first [k] bytes of [s] are there and are bytes of a multi-byte
    sequence (128 or more). *)
Fixpoint cont (k : nat) (s : string) : Prop :=
  match k with
  | O => True
  | S k' =>
    match s with
    | String c r => (128 <= byte c)%N /\ cont k' r
    | EmptyString => False
    end
  end.

(** The values [print] writes for the package: no number, every string
    valid UTF-8. *)
Fixpoint printable (j : JSON.t) : bool :=
  match j with
  | JNull | JBool _ => true
  | JNumber _ => false
  | JString s => ValidString s
  | JArray l => forallb printable l
  | JObject m => forallb (fun kv => ValidString (fst kv) && printable (snd kv)) m
  end.

(** The fuel [read_value] uses on the text of a value. *)
Fixpoint size (j : JSON.t) : nat :=
  match j with
  | JArray l => S (list_sum (map (fun e => S (size e)) l))
  | JObject m => S (list_sum (map (fun kv => S (size (snd kv))) m))
  | _ => 1
  end.

(** One member of an object, as [print] writes it. *)
Definition print_member (kv : string * JSON.t) : string :=
  appendString (fst kv) ++ ":" ++ print (snd kv).

(** [reads_back j]: the text of [j], followed by anything, is read back
    as [j] and what followed. *)
Definition reads_back (j : JSON.t) : Prop :=
  printable j = true ->
  forall (fuel : nat) (rest : string),
    size j <= fuel -> read_value fuel (print j ++ rest) = Some (j, rest).

(** The result of the QUERY scenario of the specification. *)
Definition good_result : QueryResult :=
  {| QueryResult.Items :=
       Some [{| QueryItem.ID := "1";
                QueryItem.Name := "Open"; QueryItem.Description := "";
                QueryItem.Completion := ""; QueryItem.Icon := "";
                QueryItem.Actions :=
                  Some [{| QueryAction.Name := "go";
                           QueryAction.Command := "/bin/true";
                           QueryAction.Arguments := Some [] |}] |}] |}.

(** The same item with an ID of one byte, 0xFF, which is not UTF-8. *)
Definition bad_result : QueryResult :=
  {| QueryResult.Items :=
       Some [{| QueryItem.ID := String (chr 255) "";
                QueryItem.Name := "Open"; QueryItem.Description := "";
                QueryItem.Completion := ""; QueryItem.Icon := "";
                QueryItem.Actions := Some [] |}] |}.

(** One call of a field setter of the configuration phase. *)
Inductive SetterCall : Type :=
| CallSetInfo (name version author : string)
| CallSetTrigger (trigger : string)
| CallSetDependencies (deps : slice string).

Definition RevB_call (c : SetterCall) : M unit :=
  match c with
  | CallSetInfo n v a => RevB.SetInfo n v a
  | CallSetTrigger t => RevB.SetTrigger t
  | CallSetDependencies d => RevB.SetDependencies d
  end.

Definition RevC_call (c : SetterCall) : M unit :=
  match c with
  | CallSetInfo n v a => RevC.SetInfo n v a
  | CallSetTrigger t => RevC.SetTrigger t
  | CallSetDependencies d => RevC.SetDependencies d
  end.

(** The calls of a list, one after the other. *)
Fixpoint sequence (calls : list (M unit)) : M unit :=
  match calls with
  | [] => ret tt
  | c :: rest => c ;;; sequence rest
  end.

Definition is_SetDependencies (c : SetterCall) : bool :=
  match c with
  | CallSetDependencies _ => true
  | _ => false
  end.


Definition RevC_hook (h : RevC.HookSet.t) (o : Op) : option (M Z) :=
  match o with
  | METADATA => RevC.HookSet.Metadata h
  | NAME => RevC.HookSet.Name h
  | INITIALIZE => RevC.HookSet.Initialize h
  | FINALIZE => RevC.HookSet.Finalize h
  | SETUPSESSION => RevC.HookSet.Setupsession h
  | TEARDOWNSESSION => RevC.HookSet.Teardownsession h
  | QUERY => None
  end.

(** The exit code [Run] derives from an error (lines 136-141). *)
Definition code_of (e : error) : Z :=
  match e with
  | dyn_AlbertError _ code => code
  | errorString _ => 255%Z
  end.

(** Every byte of a string passes a test. *)
Fixpoint all_bytes (ok : ascii -> bool) (s : string) : bool :=
  match s with
  | EmptyString => true
  | String c rest => ok c && all_bytes ok rest
  end.

(** A byte that is 0x20 or more (so no newline, no tab, none of the
    ASCII control characters below the space) and none of [<], [>] and
    [&].  DEL (0x7F) and every byte of 0x80 or more pass the test: the
    encoder writes them as they are. *)
Definition wire_safe (c : ascii) : bool :=
  ((32 <=? byte c) && negb ((byte c =? 60) || (byte c =? 62) || (byte c =? 38)))%N.


(** A plugin built as a struct literal with nothing set. *)
Definition bare_plugin : RevA.DefaultPlugin.t :=
  {| RevA.DefaultPlugin.Meta := Metadata.zero;
     RevA.DefaultPlugin.Output := None;
     RevA.DefaultPlugin.QueryCallback := None |}.


(** The wire text of [good_result]. *)
Definition good_text : string :=
  dq "{'items':[{'id':'1','name':'Open','description':'','completion':'','icon':'','actions':[{'name':'go','command':'/bin/true','arguments':[]}]}]}".

(** The exit status the launcher receives after [os.Exit(code)]: the
    parent of a process is handed the low eight bits of the code, so 256
    arrives as 0 and -1 as 255. *)
Definition exit_status (code : Z) : Z := (code mod 256)%Z.

(** The status with which the process ended, when [os.Exit] ended it. *)
Definition observed_status {A : Type} (o : Outcome A) : option Z :=
  match o with
  | Exit code => Some (exit_status code)
  | _ => None
  end.

(** A call that leaves a part [f] of the process state as it found it,
    however it ends. *)
Definition keeps {T A : Type} (f : World -> T) (m : M A) : Prop :=
  forall w : World, f (fst (m w)) = f w.

(** The writer and the query callback of a plugin of revision A, the two
    pieces of foreign code [RunOp] calls, keep [f]. *)
Definition plugin_code_keeps {T : Type} (f : World -> T)
    (p : RevA.DefaultPlugin.t) : Prop :=
  (forall wr b, RevA.DefaultPlugin.Output p = Some wr -> keeps f (Write wr b)) /\
  (forall cb query, RevA.DefaultPlugin.QueryCallback p = Some cb ->
                    keeps f (cb query)).

(** A [HookSet] of revision B with a Name hook and a Query hook of the
    author's; neither touches the metadata. *)
Definition custom_hooks : RevB.HookSet.t :=
  {| RevB.HookSet.Metadata := None;
     RevB.HookSet.Name := Some (fmt_Print "custom" ;;; ret 0%Z);
     RevB.HookSet.Initialize := None; RevB.HookSet.Finalize := None;
     RevB.HookSet.SetupSession := None;
     RevB.HookSet.TeardownSession := None;
     RevB.HookSet.Query := Some (fun _ => ret (good_result, 0%Z)) |}.

(** A [HookSet] of revision B whose Name hook calls [SetTrigger] before
    it answers. *)
Definition retrigger_hooks : RevB.HookSet.t :=
  {| RevB.HookSet.Metadata := None;
     RevB.HookSet.Name :=
       Some (RevB.SetTrigger "late" ;;; fmt_Print "custom" ;;; ret 0%Z);
     RevB.HookSet.Initialize := None; RevB.HookSet.Finalize := None;
     RevB.HookSet.SetupSession := None;
     RevB.HookSet.TeardownSession := None;
     RevB.HookSet.Query := None |}.

(** A query callback that fails with the explicit code [code]. *)
Definition failing_callback (code : Z) : string -> M (QueryResult * option error) :=
  fun _ => ret (QueryResult.zero,
                Some (dyn_AlbertError (Some (errorString "boom")) code)).

(** ** Proof automation *)

Ltac eval_selector Hop :=
  rewrite ?Hop;
  cbn [String.eqb Ascii.eqb Bool.eqb Op_name
       RevA.OpMetadata RevA.OpName RevA.OpInitialize RevA.OpFinalize
       RevA.OpSetupSession RevA.OpTeardownSession RevA.OpQuery].

Ltac byte_div_mod b :=
  pose proof (N.div_mod b 64 ltac:(discriminate));
  pose proof (N.mod_lt b 64 ltac:(discriminate));
  pose proof (N.div_mod b 32 ltac:(discriminate));
  pose proof (N.mod_lt b 32 ltac:(discriminate));
  pose proof (N.div_mod b 16 ltac:(discriminate));
  pose proof (N.mod_lt b 16 ltac:(discriminate));
  pose proof (N.div_mod b 8 ltac:(discriminate));
  pose proof (N.mod_lt b 8 ltac:(discriminate)).

Ltac abstract_divmod :=
  repeat match goal with
         | H : context [(?a mod ?b)%N] |- _ =>
           let m := fresh "m" in set (m := (a mod b)%N) in *; clearbody m
         | |- context [(?a mod ?b)%N] =>
           let m := fresh "m" in set (m := (a mod b)%N) in *; clearbody m
         | H : context [(?a / ?b)%N] |- _ =>
           let q := fresh "q" in set (q := (a / b)%N) in *; clearbody q
         | |- context [(?a / ?b)%N] =>
           let q := fresh "q" in set (q := (a / b)%N) in *; clearbody q
         end.

Ltac bytes_lia := abstract_divmod; lia.

(* ================================================================= *)
(** * Properties *)

(** ** The action constructor *)

Lemma cons_neq_tail {A : Type} (a : A) (l : list A) : a :: l <> l.
Proof.
  intro H. apply (f_equal (@length A)) in H. simpl in H. lia.
Qed.

(** X1 (lines 110-112, 380-382): in revisions A and B the constructor
    drops [argv[0]] of a non-empty argument vector and keeps the rest in
    order. *)
Lemma NewQueryAction_strips_argv0 (name path a0 : string) (rest : list string) :
  let cmd := {| Cmd.Path := path; Cmd.Args := Some (a0 :: rest) |} in
  let want := {| QueryAction.Name := name; QueryAction.Command := path;
                 QueryAction.Arguments := Some rest |} in
  RevA.NewQueryAction name cmd = Some want /\
  RevB.NewQueryAction name cmd = Some want.
Proof.
  split; reflexivity.
Qed.

(** C6, on revision C (lines 562-564): the constructor stores the whole
    argument vector, so for a non-empty vector [Arguments] still starts
    with [argv[0]] and differs from the vector with its head removed. *)
Theorem RevC_NewQueryAction_keeps_argv0 (name path a0 : string) (rest : list string) :
  let cmd := {| Cmd.Path := path; Cmd.Args := Some (a0 :: rest) |} in
  RevC.NewQueryAction name cmd =
    {| QueryAction.Name := name; QueryAction.Command := path;
       QueryAction.Arguments := Some (a0 :: rest) |} /\
  QueryAction.Arguments (RevC.NewQueryAction name cmd) <> Some rest /\
  QueryAction.Arguments (RevC.NewQueryAction "Browse to Facebook" chrome) =
    Some ["google-chrome-stable"; "www.facebook.com"].
Proof.
  cbn zeta. split; [reflexivity|]. split; [|reflexivity].
  cbn. intro H. injection H as H. exact (cons_neq_tail _ _ H).
Qed.

(** C7, on revision A (lines 110-112): on an argument vector with no
    element, nil or empty, the slice expression [cmd.Args[1:]] panics and
    no action is returned; on a vector of one element the action has an
    empty, non-nil [Arguments]. *)
Theorem RevA_NewQueryAction_short_argv (name path : string) :
  RevA.NewQueryAction name {| Cmd.Path := path; Cmd.Args := None |} = None /\
  RevA.NewQueryAction name {| Cmd.Path := path; Cmd.Args := Some [] |} = None /\
  forall a0 : string,
    RevA.NewQueryAction name {| Cmd.Path := path; Cmd.Args := Some [a0] |} =
      Some {| QueryAction.Name := name; QueryAction.Command := path;
              QueryAction.Arguments := Some [] |}.
Proof.
  repeat split.
Qed.

(** ** Strings *)

Lemma append_assoc (a b c : string) : (a ++ b) ++ c = a ++ (b ++ c).
Proof.
  induction a as [|x a IH]; simpl; [reflexivity | now rewrite IH].
Qed.

Lemma append_nil_r (a : string) : a ++ "" = a.
Proof.
  induction a as [|x a IH]; simpl; [reflexivity | now rewrite IH].
Qed.

Lemma length_append (a b : string) :
  String.length (a ++ b) = String.length a + String.length b.
Proof.
  induction a as [|x a IH]; simpl; [reflexivity | now rewrite IH].
Qed.

Lemma append_inv_head (a b c : string) : a ++ b = a ++ c -> b = c.
Proof.
  induction a as [|x a IH]; simpl; intro H; [exact H|].
  injection H as H. auto.
Qed.

(** A string is never itself followed by a newline. *)
Lemma append_newline_neq (a : string) : a ++ newline <> a.
Proof.
  intro H. apply (f_equal String.length) in H.
  rewrite length_append in H. simpl in H. lia.
Qed.

(** ** The wire text of [Metadata] *)

(** [json.Marshal] of a [Metadata]: one object, the six fields in the
    order of the struct, no blank between tokens. *)
Lemma print_Metadata_json (m : Metadata) :
  print (Metadata_json m) =
    "{" ++ appendString "iid" ++ ":" ++ appendString (Metadata.IID m) ++
    "," ++ appendString "name" ++ ":" ++ appendString (Metadata.Name m) ++
    "," ++ appendString "version" ++ ":" ++ appendString (Metadata.Version m) ++
    "," ++ appendString "author" ++ ":" ++ appendString (Metadata.Author m) ++
    "," ++ appendString "dependencies" ++ ":" ++
           print (of_slice JString (Metadata.Dependencies m)) ++
    "," ++ appendString "trigger" ++ ":" ++ appendString (Metadata.Trigger m) ++
    "}".
Proof.
  unfold Metadata_json.
  cbn [print map join fst snd].
  now rewrite !append_assoc.
Qed.

(** The [dependencies] member is [[]] for an empty slice and [null] for
    the nil slice. *)
Lemma print_dependencies :
  print (of_slice JString (Some [])) = "[]" /\
  print (of_slice JString None) = "null".
Proof.
  split; reflexivity.
Qed.

(** ** [NewPlugin] *)

(** C10 (lines 158-171, 56): whatever the arguments, [NewPlugin] stores
    the fixed protocol version as [IID], the four strings given, a
    non-nil empty [Dependencies], [os.Stdout] as [Output] and the callback
    given; the wire text of its metadata therefore has the member
    ["dependencies":[]]. *)
Theorem NewPlugin_fields (name version author trigger : string)
    (qc : option (string -> M (QueryResult * option error))) :
  let p := RevA.NewPlugin name version author trigger qc in
  let m := RevA.DefaultPlugin.Meta p in
  Metadata.IID m = "org.albert.extension.external/v2.0" /\
  Metadata.Dependencies m = Some [] /\
  (Metadata.Name m, Metadata.Version m, Metadata.Author m, Metadata.Trigger m)
    = (name, version, author, trigger) /\
  RevA.DefaultPlugin.Output p = Some os_Stdout /\
  RevA.DefaultPlugin.QueryCallback p = qc /\
  exists before after : string,
    fst (json_Marshal (Metadata_json m)) =
      before ++ dq "'dependencies':[]" ++ after.
Proof.
  cbn zeta. repeat (split; [reflexivity|]).
  unfold json_Marshal. cbn [fst]. rewrite print_Metadata_json.
  cbn [RevA.NewPlugin RevA.DefaultPlugin.Meta Metadata.Dependencies].
  destruct print_dependencies as [-> _].
  eexists ("{" ++ appendString "iid" ++ ":" ++ appendString _ ++
           "," ++ appendString "name" ++ ":" ++ appendString _ ++
           "," ++ appendString "version" ++ ":" ++ appendString _ ++
           "," ++ appendString "author" ++ ":" ++ appendString _ ++ ",").
  eexists.
  rewrite !append_assoc.
  do 16 (apply (f_equal2 append); [reflexivity|]).
  change (appendString "dependencies") with (dq "'dependencies'").
  cbn [dq Ascii.eqb Bool.eqb append]. reflexivity.
Qed.

(** ** Revision A: [Run] and [RunOp] *)

Lemma bind_Return {A B : Type} (m : M A) (k : A -> M B) (w w' : World) (a : A) :
  m w = (w', Return a) -> bind m k w = k a w'.
Proof.
  intro H. unfold bind. now rewrite H.
Qed.

Lemma os_Getenv_op (w : World) :
  os_Getenv "ALBERT_OP" w = (w, Return (selector w)).
Proof.
  reflexivity.
Qed.

Lemma os_Getenv_query (w : World) :
  os_Getenv "ALBERT_QUERY" w = (w, Return (query_text w)).
Proof.
  reflexivity.
Qed.

(** [Run] after [RunOp] has returned [err]: the three ways out of lines
    135-143. *)
Lemma Run_after_RunOp {P : Type} {I : RevA.Plugin.t P} (p : P)
    (w w' : World) (err : option error) :
  RevA.Plugin.RunOp p (selector w) w = (w', Return err) ->
  RevA.Run p w =
    match err with
    | Some (dyn_AlbertError inner code) =>
      (log_entry {| severity := WARNING;
                    format := Some "error (code=%d): %+v";
                    args := [ArgInt code;
                             ArgError (dyn_AlbertError inner code)] |} w',
       Exit code)
    | Some (errorString msg) =>
      (log_entry {| severity := WARNING; format := Some "error: %+v";
                    args := [ArgError (errorString msg)] |} w',
       Exit 255%Z)
    | None => (w', Exit 0%Z)
    end.
Proof.
  intro Hop. unfold RevA.Run.
  rewrite (bind_Return _ _ w w (selector w) (os_Getenv_op w)).
  rewrite (bind_Return _ _ w w' err Hop).
  destruct err as [[msg|inner code]|]; reflexivity.
Qed.

(** C3 (lines 132-144, 75-82): [Run] turns the error returned by the
    plugin's [RunOp] into the exit code.  The [Code] of an [AlbertError]
    is handed to [os.Exit] as it is, any other error gives 255, no error
    gives 0; each failure is logged as a warning first, and [Run] itself
    changes nothing else.  The status the launcher receives is the low
    eight bits of the code: it is the [Code] itself exactly when that
    lies between 0 and 255. *)
Theorem Run_exit_status {P : Type} {I : RevA.Plugin.t P} (p : P)
    (w w' : World) (err : option error) :
  RevA.Plugin.RunOp p (selector w) w = (w', Return err) ->
  (forall inner code, err = Some (dyn_AlbertError inner code) ->
     RevA.Run p w =
       (log_entry {| severity := WARNING;
                     format := Some "error (code=%d): %+v";
                     args := [ArgInt code;
                              ArgError (dyn_AlbertError inner code)] |} w',
        Exit code) /\
     observed_status (snd (RevA.Run p w)) = Some (code mod 256)%Z /\
     ((0 <= code <= 255)%Z <->
      observed_status (snd (RevA.Run p w)) = Some code)) /\
  (forall msg, err = Some (errorString msg) ->
     RevA.Run p w =
       (log_entry {| severity := WARNING; format := Some "error: %+v";
                     args := [ArgError (errorString msg)] |} w',
        Exit 255%Z) /\
     observed_status (snd (RevA.Run p w)) = Some 255%Z) /\
  (err = None ->
     RevA.Run p w = (w', Exit 0%Z) /\
     observed_status (snd (RevA.Run p w)) = Some 0%Z).
Proof.
  intro Hop. pose proof (Run_after_RunOp p w w' err Hop) as Hrun.
  split; [|split].
  - intros inner code ->. split; [exact Hrun|].
    rewrite Hrun. cbn [snd observed_status]. unfold exit_status.
    split; [reflexivity|]. split.
    + intro Hc. now rewrite Z.mod_small by lia.
    + intro E. injection E as E.
      pose proof (Z.mod_pos_bound code 256 ltac:(lia)). lia.
  - intros msg ->. split; [exact Hrun|]. now rewrite Hrun.
  - intros ->. split; [exact Hrun|]. now rewrite Hrun.
Qed.

(** A callback that fails with the explicit code 3. *)
Lemma Run_exit_status_witness :
  let p := RevA.NewPlugin "demo" "0.1" "a" "t" (Some (failing_callback 3)) in
  let w := launched "QUERY" "x" Metadata.zero in
  snd (RevA.Run p w) = Exit 3%Z /\
  observed_status (snd (RevA.Run p w)) = Some 3%Z.
Proof.
  cbn zeta.
  pose (p := RevA.NewPlugin "demo" "0.1" "a" "t" (Some (failing_callback 3))).
  pose (w := launched "QUERY" "x" Metadata.zero).
  assert (Hop : RevA.Plugin.RunOp p (selector w) w =
                  (w, Return (Some (dyn_AlbertError
                                      (Some (errorString "boom")) 3%Z))))
    by reflexivity.
  destruct (proj1 (Run_exit_status p w w _ Hop)
                  (Some (errorString "boom")) 3%Z eq_refl) as (Hrun & _ & Hst).
  split.
  - fold p w. now rewrite Hrun.
  - apply Hst. lia.
Defined.

(** A callback that fails with the explicit code 256: [os.Exit] receives
    256, and the launcher a status of 0, that of a success. *)
Lemma Run_exit_status_wraps :
  let p := RevA.NewPlugin "demo" "0.1" "a" "t" (Some (failing_callback 256)) in
  let w := launched "QUERY" "x" Metadata.zero in
  snd (RevA.Run p w) = Exit 256%Z /\
  observed_status (snd (RevA.Run p w)) = Some 0%Z /\
  observed_status (snd (RevA.Run p w)) <> Some 256%Z.
Proof.
  cbn zeta. repeat split. intro H. discriminate H.
Qed.

(** X11 (lines 216-219): what the query callback returns is what
    [RunOp] returns for QUERY when the callback fails: nothing is encoded
    or written after it. *)
Lemma RunOp_query_error (p : RevA.DefaultPlugin.t)
    (cb : string -> M (QueryResult * option error))
    (w w1 : World) (res : QueryResult) (e : error) :
  RevA.DefaultPlugin.QueryCallback p = Some cb ->
  cb (query_text w) w = (w1, Return (res, Some e)) ->
  RevA.DefaultPlugin.RunOp p "QUERY" w = (w1, Return (Some e)).
Proof.
  intros Hcb Hrun.
  unfold RevA.DefaultPlugin.RunOp. cbn [String.eqb Ascii.eqb Bool.eqb
    RevA.OpMetadata RevA.OpName RevA.OpInitialize RevA.OpFinalize
    RevA.OpSetupSession RevA.OpTeardownSession RevA.OpQuery].
  rewrite (bind_Return _ _ w w _ (os_Getenv_query w)).
  unfold RevA.DefaultPlugin.Query. rewrite Hcb.
  rewrite (bind_Return _ _ w w1 _ Hrun). reflexivity.
Qed.

Lemma eqb_of_not_In (op k : string) (l : list string) :
  ~ In op l -> In k l -> String.eqb op k = false.
Proof.
  intros Hn Hk. apply String.eqb_neq. intro E. subst. contradiction.
Qed.

(** For a selector outside the seven, [RunOp] of revision A returns the
    "unknown albert op" error with code 255 and touches nothing. *)
Lemma RevA_RunOp_unknown (p : RevA.DefaultPlugin.t) (op : string) (w : World) :
  ~ In op recognized ->
  RevA.DefaultPlugin.RunOp p op w =
    (w, Return (Some (dyn_AlbertError
                        (Some (errorString ("unknown albert op '" ++ op ++ "'")))
                        255%Z))).
Proof.
  intro Hn. unfold RevA.DefaultPlugin.RunOp.
  rewrite !(eqb_of_not_In op _ recognized Hn) by (cbn; tauto).
  reflexivity.
Qed.

(** X3 (lines 226-231, 132-144): revision A answers an unknown selector,
    the empty one included, by
    exit code 255, one warning that carries the "unknown albert op" error,
    and no write to standard output. *)
Lemma RevA_Run_unknown (p : RevA.DefaultPlugin.t) (w : World) :
  ~ In (selector w) recognized ->
  let e := dyn_AlbertError
             (Some (errorString ("unknown albert op '" ++ selector w ++ "'")))
             255%Z in
  RevA.Run p w =
    (log_entry {| severity := WARNING;
                  format := Some "error (code=%d): %+v";
                  args := [ArgInt 255%Z; ArgError e] |} w,
     Exit 255%Z) /\
  stdout (fst (RevA.Run p w)) = stdout w.
Proof.
  intros Hn e.
  pose proof (Run_after_RunOp p w w _ (RevA_RunOp_unknown p _ w Hn)) as H.
  split; [exact H | now rewrite H].
Qed.

Lemma RevA_Run_unknown_witness :
  let p := RevA.NewPlugin "demo" "0.1" "a" "t" None in
  let w := launched "" "" Metadata.zero in
  let e := dyn_AlbertError (Some (errorString "unknown albert op ''")) 255%Z in
  RevA.Run p w =
    (log_entry {| severity := WARNING;
                  format := Some "error (code=%d): %+v";
                  args := [ArgInt 255%Z; ArgError e] |} w,
     Exit 255%Z) /\
  stdout (fst (RevA.Run p w)) = "".
Proof.
  cbn zeta.
  refine (RevA_Run_unknown (RevA.NewPlugin "demo" "0.1" "a" "t" None)
            (launched "" "" Metadata.zero) _).
  cbn. intros [H|[H|[H|[H|[H|[H|[H|[]]]]]]]]; discriminate H.
Defined.

(** X4 (lines 183-191, 214-219): with no [QueryCallback], QUERY on
    revision A exits with 255, logs the
    "no behavior defined" error as a warning and writes nothing. *)
Lemma RevA_Run_query_unimplemented (p : RevA.DefaultPlugin.t) (w : World) :
  RevA.DefaultPlugin.QueryCallback p = None ->
  selector w = "QUERY" ->
  let e := dyn_AlbertError
             (Some (errorString
                      ("no behavior defined for query '" ++ query_text w ++ "'")))
             255%Z in
  RevA.Run p w =
    (log_entry {| severity := WARNING;
                  format := Some "error (code=%d): %+v";
                  args := [ArgInt 255%Z; ArgError e] |} w,
     Exit 255%Z) /\
  stdout (fst (RevA.Run p w)) = stdout w.
Proof.
  intros Hcb Hop e.
  assert (Hr : RevA.Plugin.RunOp p (selector w) w = (w, Return (Some e))).
  { rewrite Hop. cbn [RevA.Plugin.RunOp RevA.DefaultPlugin_Plugin].
    unfold RevA.DefaultPlugin.RunOp. cbn [String.eqb Ascii.eqb Bool.eqb
      RevA.OpMetadata RevA.OpName RevA.OpInitialize RevA.OpFinalize
      RevA.OpSetupSession RevA.OpTeardownSession RevA.OpQuery].
    rewrite (bind_Return _ _ w w _ (os_Getenv_query w)).
    unfold RevA.DefaultPlugin.Query. rewrite Hcb. reflexivity. }
  pose proof (Run_after_RunOp p w w _ Hr) as H.
  split; [exact H | now rewrite H].
Qed.

Lemma RevA_Run_query_unimplemented_witness :
  let p := RevA.NewPlugin "demo" "0.1" "a" "t" None in
  let w := launched "QUERY" "x" Metadata.zero in
  let e := dyn_AlbertError
             (Some (errorString "no behavior defined for query 'x'")) 255%Z in
  RevA.Run p w =
    (log_entry {| severity := WARNING;
                  format := Some "error (code=%d): %+v";
                  args := [ArgInt 255%Z; ArgError e] |} w,
     Exit 255%Z) /\
  stdout (fst (RevA.Run p w)) = "".
Proof.
  cbn zeta.
  exact (RevA_Run_query_unimplemented
           (RevA.NewPlugin "demo" "0.1" "a" "t" None)
           (launched "QUERY" "x" Metadata.zero) eq_refl eq_refl).
Defined.

(** METADATA on revision A with the standard output as sink: the wire
    text of the metadata and one newline are written, exit code 0. *)
Lemma RevA_Run_metadata (p : RevA.DefaultPlugin.t) (w : World) :
  RevA.DefaultPlugin.Output p = Some os_Stdout ->
  selector w = "METADATA" ->
  RevA.Run p w =
    (write_stdout (print (Metadata_json (RevA.DefaultPlugin.Meta p)) ++ newline) w,
     Exit 0%Z).
Proof.
  intros Hout Hop.
  assert (Hr : RevA.Plugin.RunOp p (selector w) w =
               (write_stdout (print (Metadata_json (RevA.DefaultPlugin.Meta p))
                              ++ newline) w, Return None)).
  { cbn [RevA.Plugin.RunOp RevA.DefaultPlugin_Plugin].
    unfold RevA.DefaultPlugin.RunOp. eval_selector Hop.
    unfold RevA.DefaultPlugin.Metadata, Encoder_Encode, json_Marshal.
    rewrite Hout. reflexivity. }
  exact (Run_after_RunOp p w _ _ Hr).
Qed.

Lemma demo_text_eq :
  print (Metadata_json demo_metadata) = demo_text.
Proof.
  vm_compute. reflexivity.
Qed.

(** METADATA on revision B with no Metadata hook: the wire text of the
    package variable is written with nothing after it, exit code 0. *)
Lemma RevB_Start_metadata (h : RevB.HookSet.t) (w : World) :
  RevB.HookSet.Metadata h = None ->
  selector w = "METADATA" ->
  RevB.Start h w = own_default METADATA w.
Proof.
  intros Hh Hop. unfold RevB.Start.
  rewrite (bind_Return _ _ w w _ (os_Getenv_op w)). eval_selector Hop.
  unfold RevB.exit_with. rewrite Hh. reflexivity.
Qed.

(** C5, as the code has it (lines 196-202 and 409-413).  With the
    metadata of the scenario, METADATA exits with code 0 on both
    dispatchers and writes the one JSON object, fields in the order of
    the struct and no blank in it.  Revision A prints it through
    [Encoder.Encode], which ends it with one newline; revision B, after
    the three setters, prints it through [fmt.Print] with nothing after
    it. *)
Theorem METADATA_scenario
    (qc : option (string -> M (QueryResult * option error)))
    (h : RevB.HookSet.t) (w : World) :
  selector w = "METADATA" ->
  RevA.Run (RevA.NewPlugin "demo" "0.1" "a" "t" qc) w =
    (write_stdout (demo_text ++ newline) w, Exit 0%Z) /\
  (RevB.HookSet.Metadata h = None ->
   pluginMetadata w = RevB.pluginMetadata_init ->
   (RevB.SetInfo "demo" "0.1" "a" ;;;
    RevB.SetTrigger "t" ;;;
    RevB.SetDependencies (Some []) ;;;
    RevB.Start h) w =
     (write_stdout demo_text (set_pluginMetadata demo_metadata w), Exit 0%Z)).
Proof.
  intro Hop. split.
  - rewrite (RevA_Run_metadata (RevA.NewPlugin "demo" "0.1" "a" "t" qc) w
               eq_refl Hop).
    change (RevA.DefaultPlugin.Meta (RevA.NewPlugin "demo" "0.1" "a" "t" qc))
      with demo_metadata.
    now rewrite demo_text_eq.
  - intros Hh Hinit.
    assert (Hset : (RevB.SetInfo "demo" "0.1" "a" ;;;
                    RevB.SetTrigger "t" ;;;
                    RevB.SetDependencies (Some []) ;;; ret tt) w =
                   (set_pluginMetadata demo_metadata w, Return tt)).
    { unfold RevB.SetInfo, RevB.SetTrigger, RevB.SetDependencies, bind,
        RevB.get_pluginMetadata, RevB.put_pluginMetadata, ret.
      cbn. rewrite Hinit. reflexivity. }
    assert (Hop' : selector (set_pluginMetadata demo_metadata w) = "METADATA")
      by exact Hop.
    pose proof (RevB_Start_metadata h _ Hh Hop') as Hs.
    unfold own_default in Hs. cbn [pluginMetadata set_pluginMetadata] in Hs.
    rewrite demo_text_eq in Hs.
    unfold bind in Hset |- *.
    destruct (RevB.SetInfo "demo" "0.1" "a" w) as [w1 [[]|c|s]];
      try discriminate Hset.
    destruct (RevB.SetTrigger "t" w1) as [w2 [[]|c|s]]; try discriminate Hset.
    destruct (RevB.SetDependencies (Some []) w2) as [w3 [[]|c|s]];
      try discriminate Hset.
    injection Hset as ->. exact Hs.
Qed.

Lemma METADATA_scenario_witness :
  let w := launched "METADATA" "" RevB.pluginMetadata_init in
  RevA.Run (RevA.NewPlugin "demo" "0.1" "a" "t" None) w =
    (write_stdout (demo_text ++ newline) w, Exit 0%Z) /\
  (RevB.SetInfo "demo" "0.1" "a" ;;;
   RevB.SetTrigger "t" ;;;
   RevB.SetDependencies (Some []) ;;;
   RevB.Start RevB.HookSet.zero) w =
    (write_stdout demo_text (set_pluginMetadata demo_metadata w), Exit 0%Z).
Proof.
  cbn zeta.
  destruct (METADATA_scenario None RevB.HookSet.zero
              (launched "METADATA" "" RevB.pluginMetadata_init) eq_refl)
    as [HA HB].
  split; [exact HA | exact (HB eq_refl eq_refl)].
Defined.

(** C5, as the claim has it, fails on revision A: what reaches the
    standard output is not the bare object, a newline follows it. *)
Lemma METADATA_scenario_newline :
  let w := launched "METADATA" "" Metadata.zero in
  let out := RevA.Run (RevA.NewPlugin "demo" "0.1" "a" "t" None) w in
  stdout (fst out) <> demo_text /\ stdout (fst out) = demo_text ++ newline /\
  snd out = Exit 0%Z.
Proof.
  cbn zeta.
  rewrite (RevA_Run_metadata (RevA.NewPlugin "demo" "0.1" "a" "t" None)
             (launched "METADATA" "" Metadata.zero) eq_refl eq_refl).
  change (RevA.DefaultPlugin.Meta (RevA.NewPlugin "demo" "0.1" "a" "t" None))
    with demo_metadata.
  rewrite demo_text_eq. cbn [fst snd stdout write_stdout launched append].
  split; [apply append_newline_neq | split; reflexivity].
Qed.

(** ** Revisions B and C: [HookSet.Start] *)

Lemma Op_name_recognized (o : Op) : In (Op_name o) recognized.
Proof.
  unfold recognized. apply in_map. destruct o; cbn; tauto.
Qed.

(** With no hook registered for the operation asked for, [Start] of
    revision B does what that operation's entry of [defaultHookSet]
    does. *)
Lemma RevB_Start_default_case (o : Op) (h : RevB.HookSet.t) (w : World) :
  RevB_registered h o = false ->
  selector w = Op_name o ->
  RevB.Start h w = own_default o w.
Proof.
  intros Hreg Hop. unfold RevB.Start.
  rewrite (bind_Return _ _ w w _ (os_Getenv_op w)).
  destruct o; eval_selector Hop; cbn [RevB_registered] in Hreg;
    unfold RevB.exit_with;
    match type of Hreg with
    | non_nil ?f = false => destruct f; [discriminate Hreg|]
    end;
    reflexivity.
Qed.

(** X2: revision B (lines 281-342) resolves each of the seven operations
    to its own default.  NAME prints the name, the four lifecycle operations
    print nothing, METADATA prints the wire text of the metadata, all
    with exit code 0; QUERY logs the warning, prints the encoding of the
    empty result and exits with 255. *)
Theorem RevB_Start_own_default (o : Op) (h : RevB.HookSet.t) (w : World) :
  RevB_registered h o = false ->
  selector w = Op_name o ->
  RevB.Start h w =
    match o with
    | METADATA =>
      (write_stdout (print (Metadata_json (pluginMetadata w))) w, Exit 0%Z)
    | NAME => (write_stdout (Metadata.Name (pluginMetadata w)) w, Exit 0%Z)
    | QUERY =>
      (write_stdout (dq "{'items':null}") (log_entry must_implement w),
       Exit 255%Z)
    | _ => (w, Exit 0%Z)
    end.
Proof.
  intros Hreg Hop. rewrite (RevB_Start_default_case o h w Hreg Hop).
  destruct o; reflexivity.
Qed.

Lemma RevB_Start_own_default_witness :
  let w := launched "NAME" "" demo_metadata in
  RevB.Start RevB.HookSet.zero w = (write_stdout "demo" w, Exit 0%Z).
Proof.
  cbn zeta.
  exact (RevB_Start_own_default NAME RevB.HookSet.zero
           (launched "NAME" "" demo_metadata) eq_refl eq_refl).
Defined.

(** C1, on revision C (lines 465-524): for each operation other than
    METADATA, an unregistered hook falls back to the default of METADATA,
    not to the operation's own: the JSON text of the metadata is printed
    and the exit code is 0, also for NAME and for QUERY. *)
Theorem RevC_Start_fallback_is_Metadata (o : Op) (h : RevC.HookSet.t) (w : World) :
  RevC_registered h o = false ->
  selector w = Op_name o ->
  RevC.Start h w =
    (write_stdout (print (Metadata_json (pluginMetadata w))) w, Exit 0%Z).
Proof.
  intros Hreg Hop. unfold RevC.Start.
  rewrite (bind_Return _ _ w w _ (os_Getenv_op w)).
  destruct o; eval_selector Hop; cbn [RevC_registered] in Hreg;
    unfold RevB.exit_with;
    match type of Hreg with
    | non_nil ?f = false => destruct f; [discriminate Hreg|]
    end;
    reflexivity.
Qed.

(** NAME with the metadata of the scenario: the JSON object is printed
    where the name alone, four bytes, is expected; QUERY with no hook:
    the same object and exit code 0 where 255 and a warning are
    expected. *)
Lemma RevC_Start_fallback_is_Metadata_witness :
  RevC.Start RevC.HookSet.zero (launched "NAME" "" demo_metadata) =
    (write_stdout demo_text (launched "NAME" "" demo_metadata), Exit 0%Z) /\
  RevC.Start RevC.HookSet.zero (launched "QUERY" "x" demo_metadata) =
    (write_stdout demo_text (launched "QUERY" "x" demo_metadata), Exit 0%Z) /\
  demo_text <> "demo".
Proof.
  rewrite (RevC_Start_fallback_is_Metadata NAME RevC.HookSet.zero
             (launched "NAME" "" demo_metadata) eq_refl eq_refl).
  rewrite (RevC_Start_fallback_is_Metadata QUERY RevC.HookSet.zero
             (launched "QUERY" "x" demo_metadata) eq_refl eq_refl).
  cbn [pluginMetadata launched]. rewrite demo_text_eq.
  repeat split. intro H. discriminate H.
Defined.

(** No case of the switch of revision B matches a selector outside the
    seven. *)
Lemma RevB_Start_no_case (h : RevB.HookSet.t) (w : World) :
  ~ In (selector w) recognized ->
  RevB.Start h w = (w, Return tt).
Proof.
  intro Hn. unfold RevB.Start.
  rewrite (bind_Return _ _ w w _ (os_Getenv_op w)).
  rewrite !(eqb_of_not_In _ _ recognized Hn) by (cbn; tauto).
  reflexivity.
Qed.

(** C2, on revision B (lines 281-342): the switch of [Start] has no
    default case, so for a selector outside the seven, the empty string
    included, [Start] returns to its caller: no exit code 255, no
    diagnostic, the process is left as it was. *)
Theorem RevB_Start_unknown_returns (h : RevB.HookSet.t) (w : World) :
  ~ In (selector w) recognized ->
  RevB.Start h w = (w, Return tt) /\
  (forall code : Z, snd (RevB.Start h w) <> Exit code) /\
  glog (fst (RevB.Start h w)) = glog w.
Proof.
  intro Hn. rewrite (RevB_Start_no_case h w Hn).
  split; [reflexivity|]. split; [|reflexivity].
  intros code H. discriminate H.
Qed.

Lemma RevB_Start_unknown_returns_witness :
  let w := launched "" "" RevB.pluginMetadata_init in
  RevB.Start RevB.HookSet.zero w = (w, Return tt) /\
  (forall code : Z, snd (RevB.Start RevB.HookSet.zero w) <> Exit code) /\
  glog (fst (RevB.Start RevB.HookSet.zero w)) = glog w.
Proof.
  cbn zeta. apply RevB_Start_unknown_returns.
  cbn. intros [H|[H|[H|[H|[H|[H|[H|[]]]]]]]]; discriminate H.
Defined.

(** X15 (lines 465-524): the same holds of revision C, whose switch has
    no default case either. *)
Lemma RevC_Start_unknown_returns (h : RevC.HookSet.t) (w : World) :
  ~ In (selector w) recognized ->
  RevC.Start h w = (w, Return tt).
Proof.
  intro Hn. unfold RevC.Start.
  rewrite (bind_Return _ _ w w _ (os_Getenv_op w)).
  rewrite !(eqb_of_not_In _ _ recognized Hn) by (cbn; tauto).
  reflexivity.
Qed.

(** C4, on revision B (lines 262-265, 415-423): with no Query hook,
    QUERY logs the warning and exits with 255, but [handleQueryResult]
    first prints the encoding of the empty result it was handed, so the
    standard output receives a payload. *)
Theorem RevB_Start_query_unimplemented (h : RevB.HookSet.t) (w : World) :
  RevB.HookSet.Query h = None ->
  selector w = "QUERY" ->
  RevB.Start h w =
    (write_stdout (dq "{'items':null}") (log_entry must_implement w),
     Exit 255%Z) /\
  stdout (fst (RevB.Start h w)) <> stdout w.
Proof.
  intros Hq Hop.
  assert (H : RevB.Start h w = own_default QUERY w).
  { apply RevB_Start_default_case; [cbn; now rewrite Hq | exact Hop]. }
  split; [exact H|].
  rewrite H. cbn [own_default fst stdout write_stdout log_entry].
  intro E. apply (f_equal String.length) in E.
  rewrite length_append in E. cbn in E. lia.
Qed.

Lemma RevB_Start_query_unimplemented_witness :
  let w := launched "QUERY" "x" RevB.pluginMetadata_init in
  RevB.Start RevB.HookSet.zero w =
    (write_stdout (dq "{'items':null}") (log_entry must_implement w),
     Exit 255%Z) /\
  stdout (fst (RevB.Start RevB.HookSet.zero w)) <> stdout w.
Proof.
  cbn zeta.
  exact (RevB_Start_query_unimplemented RevB.HookSet.zero
           (launched "QUERY" "x" RevB.pluginMetadata_init) eq_refl eq_refl).
Defined.

(** ** The metadata during dispatch *)

(** With nothing registered, [Start] of revision B never writes the
    package variable, whatever the selector. *)
Lemma RevB_Start_keeps_pluginMetadata (w : World) :
  pluginMetadata (fst (RevB.Start RevB.HookSet.zero w)) = pluginMetadata w.
Proof.
  destruct (in_dec string_dec (selector w) recognized) as [Hin|Hn].
  - unfold recognized in Hin. apply in_map_iff in Hin.
    destruct Hin as [o [Ho _]].
    rewrite (RevB_Start_default_case o RevB.HookSet.zero w);
      [|destruct o; reflexivity | now symmetry].
    destruct o; reflexivity.
  - now rewrite RevB_Start_no_case.
Qed.

Lemma keeps_bind {A B : Type} (m : M A) (k : A -> M B) :
  keeps_pluginMetadata m ->
  (forall a, keeps_pluginMetadata (k a)) ->
  keeps_pluginMetadata (bind m k).
Proof.
  intros Hm Hk w. unfold bind. specialize (Hm w).
  destruct (m w) as [w' [a|c|s]]; cbn [fst] in *; [|exact Hm..].
  now rewrite Hk.
Qed.

Lemma keeps_exit_with (own dflt : option (M Z)) :
  (forall fn, own = Some fn -> keeps_pluginMetadata fn) ->
  (forall fn, dflt = Some fn -> keeps_pluginMetadata fn) ->
  keeps_pluginMetadata (RevB.exit_with own dflt).
Proof.
  intros Ho Hd. unfold RevB.exit_with.
  destruct own as [fn|].
  - apply keeps_bind; [now apply Ho | intros a w; reflexivity].
  - apply keeps_bind; [|intros a w; reflexivity].
    destruct dflt as [fn|]; [now apply Hd | intros w; reflexivity].
Qed.

Lemma keeps_handleQueryResult (rc : QueryResult * Z) :
  keeps_pluginMetadata (RevB.handleQueryResult rc).
Proof.
  destruct rc as [res code]. intro w. reflexivity.
Qed.

(** [Start] of revision B, case by case: the switch, the built-in
    defaults and [handleQueryResult] read the package variable and never
    assign it. *)
Lemma RevB_Start_keeps (h : RevB.HookSet.t) :
  hooks_keep h -> keeps_pluginMetadata (RevB.Start h).
Proof.
  intros [Hnil Hq]. unfold RevB.Start.
  apply keeps_bind; [intros w; reflexivity|]. intro op.
  repeat match goal with
         | |- keeps_pluginMetadata (if ?c then _ else _) => destruct c
         end;
    try (apply keeps_exit_with;
         [ intros fn E; apply Hnil; rewrite <- E; cbn; tauto
         | intros fn E; injection E as <-; intro w; reflexivity ]).
  - apply keeps_bind; [intros w; reflexivity|]. intro query.
    destruct (RevB.HookSet.Query h) as [fn|] eqn:E.
    + apply keeps_bind; [now apply (Hq fn) | apply keeps_handleQueryResult].
    + apply keeps_bind; [intros w; reflexivity | apply keeps_handleQueryResult].
  - intro w. reflexivity.
Qed.

(** X16 (lines 281-342, 409-423): the code of the dispatcher of
    revision B never writes the package variable: if the registered hooks
    keep it, so does [Start]. *)
Lemma RevB_Start_keeps_with_hooks (h : RevB.HookSet.t) :
  hooks_keep h -> keeps_pluginMetadata (RevB.Start h).
Proof.
  exact (RevB_Start_keeps h).
Qed.

Lemma keeps_then {T A B : Type} (f : World -> T) (m : M A) (k : A -> M B) :
  keeps f m -> (forall a, keeps f (k a)) -> keeps f (bind m k).
Proof.
  intros Hm Hk w. unfold bind. specialize (Hm w).
  destruct (m w) as [w' [a|c|s]]; cbn [fst] in *; [|exact Hm..].
  now rewrite Hk.
Qed.

Lemma keeps_ret {T A : Type} (f : World -> T) (a : A) : keeps f (ret a).
Proof.
  intro w. reflexivity.
Qed.

Lemma keeps_call_Write {T : Type} (f : World -> T) (o : option Writer)
    (b : string) :
  (forall wr b, o = Some wr -> keeps f (Write wr b)) ->
  keeps f (call_Write o b).
Proof.
  intro H. destruct o as [wr|]; [now apply H | intro w; reflexivity].
Qed.

Lemma keeps_Encoder_Encode {T : Type} (f : World -> T) (o : option Writer)
    (j : JSON.t) :
  (forall wr b, o = Some wr -> keeps f (Write wr b)) ->
  keeps f (Encoder_Encode o j).
Proof.
  intro H. unfold Encoder_Encode, json_Marshal.
  apply keeps_then; [now apply keeps_call_Write | intro r; apply keeps_ret].
Qed.

(** [RunOp] of revision A has no effect of its own on the process: what
    its writer and its callback keep, it keeps, for every selector. *)
Lemma RevA_RunOp_keeps {T : Type} (f : World -> T) (p : RevA.DefaultPlugin.t) :
  plugin_code_keeps f p ->
  forall op, keeps f (RevA.DefaultPlugin.RunOp p op).
Proof.
  intros [Hw Hcb] op. unfold RevA.DefaultPlugin.RunOp.
  repeat match goal with
         | |- keeps f (if ?c then _ else _) => destruct c
         end; try apply keeps_ret.
  - apply keeps_then; [apply keeps_ret|]. intro m.
    apply keeps_then; [now apply keeps_Encoder_Encode|].
    intros [e|]; apply keeps_ret.
  - apply keeps_then; [now apply keeps_call_Write | intro r; apply keeps_ret].
  - apply keeps_then; [intro w; reflexivity|]. intro query.
    apply keeps_then.
    + unfold RevA.DefaultPlugin.Query.
      destruct (RevA.DefaultPlugin.QueryCallback p) as [cb|] eqn:E;
        [now apply (Hcb cb) | apply keeps_ret].
    + intros [res [e|]]; cbn [snd fst]; [apply keeps_ret|].
      apply keeps_then; [now apply keeps_Encoder_Encode|].
      intros [e|]; apply keeps_ret.
Qed.

(** [Run] adds to [RunOp] a reading of the environment, a log entry and
    the exit. *)
Lemma RevA_Run_keeps {T P : Type} {I : RevA.Plugin.t P} (f : World -> T)
    (p : P) :
  (forall op, keeps f (RevA.Plugin.RunOp p op)) ->
  (forall e w, f (log_entry e w) = f w) ->
  keeps f (RevA.Run p).
Proof.
  intros Hop Hlog. unfold RevA.Run.
  apply keeps_then; [intro w; reflexivity|]. intro op.
  apply keeps_then; [apply Hop|].
  intros [[msg|inner code]|] w; cbn; try apply Hlog; reflexivity.
Qed.

(** C9 (lines 174-176, 195-232; 281-342).  The code of the dispatcher
    writes nothing of its own.  On revision A, whatever part of the
    process state the writer and the query callback of the plugin leave
    as it is, [RunOp] leaves as it is, for every selector, known or not,
    and however the call ends; [Run] adds a log entry and the exit.  On
    revision B, where the metadata is the package variable, [Start]
    leaves it as it was whenever the registered hooks do. *)
Theorem dispatcher_writes_no_Metadata :
  (forall (T : Type) (f : World -> T) (p : RevA.DefaultPlugin.t),
     plugin_code_keeps f p ->
     forall op, keeps f (RevA.DefaultPlugin.RunOp p op)) /\
  (forall (T P : Type) (I : RevA.Plugin.t P) (f : World -> T) (p : P),
     (forall op, keeps f (RevA.Plugin.RunOp p op)) ->
     (forall e w, f (log_entry e w) = f w) ->
     keeps f (RevA.Run p)) /\
  (forall h : RevB.HookSet.t,
     hooks_keep h -> keeps_pluginMetadata (RevB.Start h)).
Proof.
  split; [|split].
  - intros T f p. apply RevA_RunOp_keeps.
  - intros T P I f p. apply RevA_Run_keeps.
  - exact RevB_Start_keeps.
Qed.

(** A plugin that writes to the standard output, with a callback that
    answers, and a [HookSet] with hooks of the author's that print and
    answer: the dispatch leaves the metadata as it was. *)
Lemma dispatcher_writes_no_Metadata_witness :
  let p := RevA.NewPlugin "demo" "0.1" "a" "t"
             (Some (fun _ => ret (good_result, None))) in
  let w := launched "QUERY" "open" demo_metadata in
  snd (RevA.DefaultPlugin.Metadata p (fst (RevA.DefaultPlugin.RunOp p "QUERY" w)))
    = snd (RevA.DefaultPlugin.Metadata p w) /\
  pluginMetadata (fst (RevA.Run p w)) = pluginMetadata w /\
  pluginMetadata (fst (RevB.Start custom_hooks w)) = pluginMetadata w.
Proof.
  cbn zeta.
  pose (p := RevA.NewPlugin "demo" "0.1" "a" "t"
               (Some (fun _ => ret (good_result, None)))).
  pose (w := launched "QUERY" "open" demo_metadata).
  fold p w. split; [|split].
  - refine (proj1 dispatcher_writes_no_Metadata _
              (fun x => snd (RevA.DefaultPlugin.Metadata p x)) p _ "QUERY" w).
    split; intros; intro x; reflexivity.
  - refine (proj1 (proj2 dispatcher_writes_no_Metadata) _ _ _
              pluginMetadata p _ _ w).
    + refine (proj1 dispatcher_writes_no_Metadata _ pluginMetadata p _).
      split.
      * intros wr b H. injection H as <-. intro x. reflexivity.
      * intros cb query H. injection H as <-. intro x. reflexivity.
    + intros e x. reflexivity.
  - refine (proj2 (proj2 dispatcher_writes_no_Metadata) custom_hooks _ w).
    split.
    + intros fn Hin. cbn in Hin.
      destruct Hin as [H|[H|[H|[H|[H|[H|[]]]]]]]; try discriminate H.
      injection H as <-. intro x. reflexivity.
    + intros fn query H. injection H as <-. intro x. reflexivity.
Defined.

(** C9, as the claim has it, fails on revision B: a registered hook is
    code of the dispatch, and one that calls a setter changes the package
    variable after the dispatcher has begun. *)
Lemma registered_hook_writes_Metadata :
  let w := launched "NAME" "" RevB.pluginMetadata_init in
  snd (RevB.Start retrigger_hooks w) = Exit 0%Z /\
  Metadata.Trigger (pluginMetadata w) = "" /\
  Metadata.Trigger (pluginMetadata (fst (RevB.Start retrigger_hooks w))) = "late" /\
  pluginMetadata (fst (RevB.Start retrigger_hooks w)) <> pluginMetadata w.
Proof.
  cbn zeta. repeat split. intro H. discriminate H.
Qed.

(** * The round trip of [QueryResult] *)

(** ** Bytes *)

Lemma byte_inj (c d : ascii) : byte c = byte d -> c = d.
Proof.
  unfold byte. intro H.
  rewrite <- (ascii_N_embedding c), <- (ascii_N_embedding d). now rewrite H.
Qed.

Lemma eqb_byte (c d : ascii) : Ascii.eqb c d = (byte c =? byte d)%N.
Proof.
  destruct (Ascii.eqb_spec c d) as [->|Hne].
  - now rewrite N.eqb_refl.
  - symmetry. apply N.eqb_neq. intro H. apply Hne. now apply byte_inj.
Qed.

Lemma byte_lt_256 (c : ascii) : (byte c < 256)%N.
Proof.
  apply N_ascii_bounded.
Qed.

Lemma chr_byte (c : ascii) (n : N) : byte c = n -> c = chr n.
Proof.
  intros <-. unfold chr, byte. now rewrite ascii_N_embedding.
Qed.

(** A byte that a reader copies as it stands: not below 0x20, not the
    quote, not the backslash. *)
Lemma read_chars_raw (c : ascii) (t : string) :
  (32 <= byte c)%N -> byte c <> 34%N -> byte c <> 92%N ->
  read_chars (String c t) = prepend (String c "") (read_chars t).
Proof.
  intros H32 Hq Hb. cbn [read_chars].
  rewrite !eqb_byte.
  change (byte quote) with 34%N. change (byte backslash) with 92%N.
  destruct (N.eqb_spec (byte c) 34) as [E|_]; [contradiction|].
  destruct (N.eqb_spec (byte c) 92) as [E|_]; [contradiction|].
  destruct (N.ltb_spec (byte c) 32) as [E|_]; [lia|].
  reflexivity.
Qed.

Lemma htmlSafe_raw (c : ascii) :
  htmlSafe c = true -> (32 <= byte c)%N /\ byte c <> 34%N /\ byte c <> 92%N.
Proof.
  unfold htmlSafe. cbv zeta. intro H.
  apply andb_prop in H as [H H3]. apply andb_prop in H as [H1 H2].
  apply negb_true_iff in H3.
  repeat (apply orb_false_elim in H3 as [H3 ?]).
  apply N.leb_le in H1. apply N.eqb_neq in H3.
  repeat split; try assumption. now apply N.eqb_neq.
Qed.

(** The escape [appendString] prints for an ASCII byte outside
    [htmlSafeSet] is read back as that byte. *)
Lemma read_chars_escape_byte (c : ascii) (t : string) :
  (byte c <? 128)%N = true -> htmlSafe c = false ->
  read_chars (escape_byte c ++ t) = prepend (String c "") (read_chars t).
Proof.
  destruct c as [[] [] [] [] [] [] [] []]; intros H1 H2;
    try discriminate H1; try discriminate H2; reflexivity.
Qed.

(** ** Runes *)

Lemma lor_mul_add (a b n : N) :
  (b < 2 ^ n)%N -> N.lor (a * 2 ^ n) b = (a * 2 ^ n + b)%N.
Proof.
  intro Hb.
  assert (H0 : N.land (a * 2 ^ n) b = 0%N).
  { apply N.bits_inj. intro m. rewrite N.land_spec, N.bits_0.
    destruct (N.lt_ge_cases m n) as [Hlt|Hge].
    - now rewrite N.mul_pow2_bits_low.
    - rewrite <- (N.mod_small b (2 ^ n)) by exact Hb.
      rewrite N.mod_pow2_bits_high by exact Hge. apply andb_false_r. }
  rewrite <- N.lxor_lor by exact H0.
  now rewrite <- N.add_nocarry_lxor by exact H0.
Qed.

Lemma land_63 (b : N) : N.land b 63 = (b mod 64)%N.
Proof.
  change 63%N with (N.ones 6). now rewrite N.land_ones.
Qed.

Lemma land_31 (b : N) : N.land b 31 = (b mod 32)%N.
Proof.
  change 31%N with (N.ones 5). now rewrite N.land_ones.
Qed.

Lemma land_15 (b : N) : N.land b 15 = (b mod 16)%N.
Proof.
  change 15%N with (N.ones 4). now rewrite N.land_ones.
Qed.

Lemma land_7 (b : N) : N.land b 7 = (b mod 8)%N.
Proof.
  change 7%N with (N.ones 3). now rewrite N.land_ones.
Qed.

(** The rune of a sequence of two, three and four bytes, as a sum. *)
Lemma rune2 (p0 b1 : N) :
  N.lor (N.shiftl (N.land p0 31) 6) (N.land b1 63) =
    ((p0 mod 32) * 64 + b1 mod 64)%N.
Proof.
  rewrite land_31, land_63, N.shiftl_mul_pow2.
  apply (lor_mul_add _ _ 6). change (2 ^ 6)%N with 64%N.
  apply N.mod_lt. discriminate.
Qed.

Lemma rune3 (p0 b1 b2 : N) :
  N.lor (N.lor (N.shiftl (N.land p0 15) 12) (N.shiftl (N.land b1 63) 6))
        (N.land b2 63) =
    ((p0 mod 16) * 4096 + (b1 mod 64) * 64 + b2 mod 64)%N.
Proof.
  rewrite land_15, !land_63, !N.shiftl_mul_pow2.
  assert (H1 : (b1 mod 64 < 64)%N) by (apply N.mod_lt; discriminate).
  assert (H2 : (b2 mod 64 < 64)%N) by (apply N.mod_lt; discriminate).
  rewrite (lor_mul_add _ _ 12)
    by (change (2 ^ 12)%N with 4096%N; change (2 ^ 6)%N with 64%N; lia).
  change (2 ^ 12)%N with 4096%N. change (2 ^ 6)%N with 64%N.
  replace (p0 mod 16 * 4096 + b1 mod 64 * 64)%N
    with ((p0 mod 16 * 64 + b1 mod 64) * 2 ^ 6)%N
    by (change (2 ^ 6)%N with 64%N; lia).
  rewrite (lor_mul_add _ _ 6) by (change (2 ^ 6)%N with 64%N; lia).
  change (2 ^ 6)%N with 64%N. lia.
Qed.

Lemma rune4 (p0 b1 b2 b3 : N) :
  N.lor (N.lor (N.lor (N.shiftl (N.land p0 7) 18) (N.shiftl (N.land b1 63) 12))
               (N.shiftl (N.land b2 63) 6))
        (N.land b3 63) =
    ((p0 mod 8) * 262144 + (b1 mod 64) * 4096 + (b2 mod 64) * 64 + b3 mod 64)%N.
Proof.
  rewrite land_7, !land_63, !N.shiftl_mul_pow2.
  assert (H1 : (b1 mod 64 < 64)%N) by (apply N.mod_lt; discriminate).
  assert (H2 : (b2 mod 64 < 64)%N) by (apply N.mod_lt; discriminate).
  assert (H3 : (b3 mod 64 < 64)%N) by (apply N.mod_lt; discriminate).
  change (2 ^ 18)%N with 262144%N. change (2 ^ 12)%N with 4096%N.
  change (2 ^ 6)%N with 64%N.
  replace (p0 mod 8 * 262144)%N with ((p0 mod 8) * 2 ^ 18)%N
    by (change (2 ^ 18)%N with 262144%N; lia).
  rewrite (lor_mul_add _ _ 18) by (change (2 ^ 18)%N with 262144%N; lia).
  change (2 ^ 18)%N with 262144%N.
  replace (p0 mod 8 * 262144 + b1 mod 64 * 4096)%N
    with ((p0 mod 8 * 64 + b1 mod 64) * 2 ^ 12)%N
    by (change (2 ^ 12)%N with 4096%N; lia).
  rewrite (lor_mul_add _ _ 12) by (change (2 ^ 12)%N with 4096%N; lia).
  change (2 ^ 12)%N with 4096%N.
  replace ((p0 mod 8 * 64 + b1 mod 64) * 4096 + b2 mod 64 * 64)%N
    with (((p0 mod 8 * 64 + b1 mod 64) * 64 + b2 mod 64) * 2 ^ 6)%N
    by (change (2 ^ 6)%N with 64%N; lia).
  rewrite (lor_mul_add _ _ 6) by (change (2 ^ 6)%N with 64%N; lia).
  change (2 ^ 6)%N with 64%N. lia.
Qed.

Lemma lead_byte_spec (p : N) (sz : nat) (lo hi : N) :
  lead_byte p = Some (sz, lo, hi) ->
  (128 <= lo)%N /\ (hi <= 191)%N /\
  ((sz = 2 /\ (p < 224)%N) \/
   (sz = 3 /\ (224 <= p < 240)%N) \/
   (sz = 4 /\ (240 <= p <= 244)%N /\ (p = 240%N -> lo = 144%N))).
Proof.
  unfold lead_byte.
  repeat match goal with
         | |- context [(?a <? ?b)%N] => destruct (N.ltb_spec a b)
         | |- context [(?a =? ?b)%N] => destruct (N.eqb_spec a b)
         end;
    intro Heq; inversion Heq; subst; clear Heq;
    (split; [lia|]); (split; [lia|]);
    first [ left; split; [reflexivity | lia]
          | right; left; split; [reflexivity | lia]
          | right; right; split; [reflexivity | split; [lia | intros; lia]] ].
Qed.

(** What [DecodeRuneInString] says of a sequence it accepts: the bytes
    after the lead byte are continuation bytes, and the rune is U+2028 or
    U+2029 only for the three bytes E2 80 A8 and E2 80 A9. *)
Lemma Decode_lead (c : ascii) (r : string) (cp : N) (size : nat) :
  (128 <= byte c)%N ->
  DecodeRuneInString (String c r) = (cp, size) ->
  (cp =? RuneError)%N && Nat.eqb size 1 = false ->
  cont (Nat.pred size) r /\
  (cp = 8232%N \/ cp = 8233%N ->
   size = 3 /\
   exists r', String c r =
              String (chr 226) (String (chr 128) (String (chr (cp - 8064)) r'))).
Proof.
  intros Hc HD Hok. unfold DecodeRuneInString in HD.
  destruct (N.ltb_spec (byte c) 128) as [Hlt|_]; [lia|].
  destruct (lead_byte (byte c)) as [[[sz lo] hi]|] eqn:L;
    [|inversion HD; subst; discriminate Hok].
  destruct (lead_byte_spec _ _ _ _ L) as [Hlo [Hhi Hsz]].
  destruct r as [|c1 r1]; [inversion HD; subst; discriminate Hok|].
  destruct ((byte c1 <? lo) || (hi <? byte c1))%N eqn:E1;
    [inversion HD; subst; discriminate Hok|].
  apply orb_false_elim in E1 as [E1a E1b].
  apply N.ltb_ge in E1a. apply N.ltb_ge in E1b.
  pose proof (byte_lt_256 c) as Hc256.
  destruct Hsz as [[-> Hp]|[[-> Hp]|[-> [Hp H240]]]]; cbn [Nat.leb] in HD.
  - (* two bytes *)
    inversion HD; subst; clear HD. cbn [Nat.pred cont].
    split; [split; [lia | exact I]|].
    rewrite rune2. byte_div_mod (byte c). byte_div_mod (byte c1).
    clear Hok L. intros [E|E]; bytes_lia.
  - (* three bytes *)
    destruct r1 as [|c2 r2]; [inversion HD; subst; discriminate Hok|].
    destruct (continuation (byte c2)) eqn:E2; cbn [negb] in HD;
      [|inversion HD; subst; discriminate Hok].
    unfold continuation in E2. apply andb_prop in E2 as [E2a E2b].
    apply N.leb_le in E2a. apply N.leb_le in E2b.
    inversion HD; subst; clear HD. cbn [Nat.pred cont].
    split; [repeat split; lia|].
    rewrite rune3 in *.
    byte_div_mod (byte c). byte_div_mod (byte c1). byte_div_mod (byte c2).
    intro E. split; [reflexivity|]. exists r2.
    clear Hok L.
    f_equal; [|f_equal; [|f_equal]]; apply chr_byte; bytes_lia.
  - (* four bytes *)
    destruct r1 as [|c2 r2]; [inversion HD; subst; discriminate Hok|].
    destruct (continuation (byte c2)) eqn:E2; cbn [negb] in HD;
      [|inversion HD; subst; discriminate Hok].
    destruct r2 as [|c3 r3]; [inversion HD; subst; discriminate Hok|].
    destruct (continuation (byte c3)) eqn:E3; cbn [negb] in HD;
      [|inversion HD; subst; discriminate Hok].
    unfold continuation in E2, E3.
    apply andb_prop in E2 as [E2a E2b]. apply andb_prop in E3 as [E3a E3b].
    apply N.leb_le in E2a. apply N.leb_le in E2b.
    apply N.leb_le in E3a. apply N.leb_le in E3b.
    inversion HD; subst; clear HD. cbn [Nat.pred cont].
    split; [repeat split; lia|].
    rewrite rune4.
    byte_div_mod (byte c). byte_div_mod (byte c1).
    byte_div_mod (byte c2). byte_div_mod (byte c3).
    clear Hok L.
    intros [E|E]; exfalso;
      (destruct (N.eq_dec (byte c) 240) as [E240|N240];
       [specialize (H240 E240); bytes_lia | clear H240; bytes_lia]).
Qed.

Lemma escape_from_copy_irrelevant (copy : bool) (s : string) :
  escape_from 0 copy s = escape_from 0 true s.
Proof.
  destruct s; reflexivity.
Qed.

(** What [appendString] prints between the quotes for a valid string is
    read back as that string.  The statement follows [escape_from]: [k]
    continuation bytes of the current rune are still to be copied. *)
Lemma read_chars_escape_from (n : nat) :
  forall (s : string) (k : nat) (rest : string),
    String.length s <= n ->
    cont k s ->
    valid_from k s = true ->
    read_chars (escape_from k true s ++ String quote rest) = Some (s, rest).
Proof.
  induction n as [|n IH]; intros s k rest Hlen Hc Hv.
  - destruct s; [|cbn in Hlen; lia].
    reflexivity.
  - destruct s as [|c r].
    { reflexivity. }
    cbn [String.length] in Hlen. apply le_S_n in Hlen.
    destruct k as [|k].
    + cbn [escape_from valid_from] in *.
      destruct (byte c <? 128)%N eqn:Ea.
      * destruct (htmlSafe c) eqn:Es.
        -- cbn [append].
           destruct (htmlSafe_raw c Es) as [H1 [H2 H3]].
           rewrite (read_chars_raw c _ H1 H2 H3).
           now rewrite (IH r 0 rest Hlen I Hv).
        -- rewrite append_assoc, (read_chars_escape_byte c _ Ea Es).
           now rewrite (IH r 0 rest Hlen I Hv).
      * apply N.ltb_ge in Ea.
        destruct (DecodeRuneInString (String c r)) as [cp size] eqn:ED.
        destruct ((cp =? RuneError)%N && Nat.eqb size 1) eqn:Eok;
          [discriminate Hv|].
        destruct (Decode_lead c r cp size Ea ED Eok) as [Hcont H2028].
        destruct ((cp =? 8232) || (cp =? 8233))%N eqn:E2.
        -- assert (Hcp : cp = 8232%N \/ cp = 8233%N).
           { apply orb_prop in E2 as [E|E]; apply N.eqb_eq in E; tauto. }
           destruct (H2028 Hcp) as [-> [r' Hs]].
           injection Hs as -> ->. clear H2028 Hcont ED Eok Ea E2.
           cbn [Nat.pred valid_from escape_from] in *.
           cbn [String.length] in Hlen.
           rewrite escape_from_copy_irrelevant.
           assert (Hr : read_chars (escape_from 0 true r' ++ String quote rest)
                        = Some (r', rest)) by (apply IH; [lia | exact I | exact Hv]).
           destruct Hcp as [-> | ->]; cbn; rewrite Hr; reflexivity.
        -- cbn [append].
           rewrite (read_chars_raw c _) by lia.
           now rewrite (IH r (Nat.pred size) rest Hlen Hcont Hv).
    + cbn [escape_from valid_from cont] in *. destruct Hc as [Hc Hc'].
      cbn [append].
      rewrite (read_chars_raw c _) by lia.
      now rewrite (IH r k rest Hlen Hc' Hv).
Qed.

(** A string literal printed by [appendString] reads back as the string,
    whatever follows it. *)
Lemma read_chars_appendString (s rest : string) :
  ValidString s = true ->
  exists body, appendString s ++ rest = String quote body /\
               read_chars body = Some (s, rest).
Proof.
  intro Hv. unfold appendString. cbn [append].
  eexists. split; [reflexivity|].
  rewrite append_assoc. cbn [append].
  exact (read_chars_escape_from _ s 0 rest (le_n _) I Hv).
Qed.

(** ** Reading what [print] wrote *)

Lemma json_ind' (P : JSON.t -> Prop) :
  P JNull ->
  (forall b, P (JBool b)) ->
  (forall lit, P (JNumber lit)) ->
  (forall s, P (JString s)) ->
  (forall l, Forall P l -> P (JArray l)) ->
  (forall m, Forall (fun kv => P (snd kv)) m -> P (JObject m)) ->
  forall j, P j.
Proof.
  intros Hnull Hbool Hnum Hstr Harr Hobj.
  fix IH 1. intros [ |b|lit|s|l|m].
  - exact Hnull.
  - apply Hbool.
  - apply Hnum.
  - apply Hstr.
  - apply Harr. induction l as [|e l IHl]; constructor; [apply IH | exact IHl].
  - apply Hobj. induction m as [|[k v] m IHm]; constructor; [apply IH | exact IHm].
Qed.

Lemma list_sum_cons (x : nat) (l : list nat) :
  list_sum (x :: l) = x + list_sum l.
Proof.
  reflexivity.
Qed.

(** The first character [print] writes is no blank and closes nothing. *)
Lemma print_head (j : JSON.t) (rest : string) :
  printable j = true ->
  exists c t, print j ++ rest = String c t /\ is_ws c = false /\
              Ascii.eqb c "]"%char = false /\ Ascii.eqb c "}"%char = false.
Proof.
  destruct j as [ |[]|lit|s|l|m]; intro H; try discriminate H;
    do 2 eexists; (split; [reflexivity | repeat split; reflexivity]).
Qed.

Lemma read_elements_print (l : list JSON.t) :
  l <> [] ->
  Forall reads_back l ->
  forallb printable l = true ->
  forall (fuel : nat) (rest : string),
    list_sum (map (fun e => S (size e)) l) <= fuel ->
    read_elements fuel (join "," (map print l) ++ String "]"%char rest)
      = Some (l, rest).
Proof.
  induction l as [|e l IHl]; [congruence|]. intros _ HF Hp fuel rest Hfuel.
  inversion HF as [|? ? He HF']; subst.
  cbn [forallb] in Hp. apply andb_prop in Hp as [Hpe Hpl].
  cbn [map] in Hfuel. rewrite list_sum_cons in Hfuel.
  destruct fuel as [|f]; [lia|].
  destruct l as [|e2 l].
  - cbn [map join read_elements].
    rewrite (He Hpe f (String "]"%char rest)) by lia.
    reflexivity.
  - change (join "," (map print (e :: e2 :: l)))
      with (print e ++ "," ++ join "," (map print (e2 :: l))).
    rewrite !append_assoc. cbn [read_elements].
    rewrite (He Hpe f _) by lia.
    cbn [append skip_ws is_ws].
    change (is_ws ","%char) with false. cbv iota.
    change (Ascii.eqb ","%char ","%char) with true. cbv iota.
    rewrite (IHl ltac:(discriminate) HF' Hpl f rest) by lia.
    reflexivity.
Qed.

Lemma read_members_print (m : list (string * JSON.t)) :
  m <> [] ->
  Forall (fun kv => reads_back (snd kv)) m ->
  forallb (fun kv => ValidString (fst kv) && printable (snd kv)) m = true ->
  forall (fuel : nat) (rest : string),
    list_sum (map (fun kv => S (size (snd kv))) m) <= fuel ->
    read_members fuel (join "," (map print_member m) ++ String "}"%char rest)
      = Some (m, rest).
Proof.
  induction m as [|[k v] m IHm]; [congruence|]. intros _ HF Hp fuel rest Hfuel.
  inversion HF as [|? ? Hv HF']; subst. cbn [snd] in Hv.
  cbn [forallb fst snd] in Hp. apply andb_prop in Hp as [Hpe Hpm].
  apply andb_prop in Hpe as [Hk Hpv].
  cbn [map snd] in Hfuel. rewrite list_sum_cons in Hfuel.
  destruct fuel as [|f]; [lia|].
  assert (Hone : forall tail,
             read_members (S f) (print_member (k, v) ++ tail) =
             match skip_ws tail with
             | EmptyString => None
             | String c r =>
               if Ascii.eqb c ","%char then
                 match read_members f r with
                 | Some (m', rest') => Some ((k, v) :: m', rest')
                 | None => None
                 end
               else if Ascii.eqb c "}"%char then Some ([(k, v)], r)
               else None
             end).
  { intro tail. unfold print_member. cbn [fst snd].
    rewrite !append_assoc.
    destruct (read_chars_appendString k (":" ++ print v ++ tail) Hk)
      as [body [Eb Rb]].
    rewrite Eb. cbn [read_members skip_ws].
    change (is_ws quote) with false. cbv iota.
    change (Ascii.eqb quote quote) with true. cbv iota.
    rewrite Rb. cbn [append skip_ws].
    change (is_ws ":"%char) with false. cbv iota.
    change (Ascii.eqb ":"%char ":"%char) with true. cbv iota.
    rewrite (Hv Hpv f tail) by lia. reflexivity. }
  destruct m as [|kv2 m].
  - cbn [map join]. rewrite Hone. reflexivity.
  - change (join "," (map print_member ((k, v) :: kv2 :: m)))
      with (print_member (k, v) ++ "," ++ join "," (map print_member (kv2 :: m))).
    rewrite !append_assoc. rewrite Hone.
    cbn [append skip_ws].
    change (is_ws ","%char) with false. cbv iota.
    change (Ascii.eqb ","%char ","%char) with true. cbv iota.
    rewrite (IHm ltac:(discriminate) HF' Hpm f rest) by lia.
    reflexivity.
Qed.

(** Every value without a number, its strings valid UTF-8, reads back
    from its compact text, given fuel for its size. *)
Lemma read_value_print (j : JSON.t) : reads_back j.
Proof.
  induction j as [ |b|lit|s|l IHl|m IHm] using json_ind';
    intros Hp fuel rest Hfuel; cbn [size] in Hfuel;
    (destruct fuel as [|f]; [lia|]).
  - reflexivity.
  - destruct b; reflexivity.
  - discriminate Hp.
  - cbn [printable] in Hp. cbn [print].
    destruct (read_chars_appendString s rest Hp) as [body [Eb Rb]].
    rewrite Eb. cbn [read_value skip_ws].
    change (is_ws quote) with false. cbv iota.
    change (Ascii.eqb quote quote) with true. cbv iota.
    now rewrite Rb.
  - cbn [printable] in Hp. cbn [print].
    destruct l as [|e l]; [reflexivity|].
    rewrite !append_assoc.
    change ("[" ++ join "," (map print (e :: l)) ++ "]" ++ rest)
      with (String "["%char (join "," (map print (e :: l)) ++ String "]"%char rest)).
    cbn [read_value skip_ws].
    change (is_ws "["%char) with false. cbv iota.
    change (Ascii.eqb "["%char quote) with false. cbv iota.
    change (Ascii.eqb "["%char "["%char) with true. cbv iota.
    assert (Hh : exists c t,
               join "," (map print (e :: l)) ++ String "]"%char rest = String c t /\
               is_ws c = false /\ Ascii.eqb c "]"%char = false).
    { cbn [forallb] in Hp. apply andb_prop in Hp as [Hpe _].
      destruct l as [|e2 l].
      - cbn [map join].
        destruct (print_head e (String "]"%char rest) Hpe) as [c [t [E [W [B _]]]]].
        eauto.
      - change (join "," (map print (e :: e2 :: l)))
          with (print e ++ "," ++ join "," (map print (e2 :: l))).
        rewrite append_assoc.
        destruct (print_head e (("," ++ join "," (map print (e2 :: l)))
                                ++ String "]"%char rest) Hpe)
          as [c [t [E [W [B _]]]]].
        eauto. }
    destruct Hh as [c [t [E [W B]]]].
    rewrite (read_elements_print (e :: l) ltac:(discriminate) IHl Hp f rest)
      by lia.
    rewrite E. cbn [skip_ws]. rewrite W, B. reflexivity.
  - cbn [printable] in Hp. cbn [print].
    destruct m as [|kv m]; [reflexivity|].
    change (map (fun kv0 => appendString (fst kv0) ++ ":" ++ print (snd kv0)) (kv :: m))
      with (map print_member (kv :: m)).
    rewrite !append_assoc.
    change ("{" ++ join "," (map print_member (kv :: m)) ++ "}" ++ rest)
      with (String "{"%char
                   (join "," (map print_member (kv :: m)) ++ String "}"%char rest)).
    cbn [read_value skip_ws].
    change (is_ws "{"%char) with false. cbv iota.
    change (Ascii.eqb "{"%char quote) with false. cbv iota.
    change (Ascii.eqb "{"%char "["%char) with false. cbv iota.
    change (Ascii.eqb "{"%char "{"%char) with true. cbv iota.
    assert (Hh : exists t,
               join "," (map print_member (kv :: m)) ++ String "}"%char rest
               = String quote t).
    { destruct m as [|kv2 m].
      - cbn [map join]. unfold print_member, appendString. cbn [append]. eauto.
      - change (join "," (map print_member (kv :: kv2 :: m)))
          with (print_member kv ++ "," ++ join "," (map print_member (kv2 :: m))).
        unfold print_member at 1. unfold appendString at 1. cbn [append]. eauto. }
    destruct Hh as [t E].
    rewrite (read_members_print (kv :: m) ltac:(discriminate) IHm Hp f rest)
      by lia.
    rewrite E. cbn [skip_ws].
    change (is_ws quote) with false. cbv iota.
    change (Ascii.eqb quote "}"%char) with false. cbv iota.
    reflexivity.
Qed.

(** ** Fuel *)

Lemma length_join_elements (l : list JSON.t) :
  Forall (fun e => size e <= String.length (print e)) l ->
  list_sum (map (fun e => S (size e)) l)
    <= String.length (join "," (map print l)) + 1.
Proof.
  induction l as [|e l IHl]; intro HF; [cbn; lia|].
  inversion HF as [|? ? He HF']; subst. specialize (IHl HF').
  cbn [map]. rewrite list_sum_cons.
  destruct l as [|e2 l].
  - cbn [map join list_sum fold_right]. lia.
  - change (join "," (print e :: map print (e2 :: l)))
      with (print e ++ "," ++ join "," (map print (e2 :: l))).
    rewrite !length_append. cbn [String.length]. lia.
Qed.

Lemma length_join_members (m : list (string * JSON.t)) :
  Forall (fun kv => size (snd kv) <= String.length (print (snd kv))) m ->
  list_sum (map (fun kv => S (size (snd kv))) m)
    <= String.length (join "," (map print_member m)) + 1.
Proof.
  induction m as [|kv m IHm]; intro HF; [cbn; lia|].
  inversion HF as [|? ? He HF']; subst. specialize (IHm HF').
  cbn [map]. rewrite list_sum_cons.
  assert (Hkv : size (snd kv) <= String.length (print_member kv)).
  { unfold print_member. rewrite !length_append. lia. }
  destruct m as [|kv2 m].
  - cbn [map join list_sum fold_right]. lia.
  - change (join "," (print_member kv :: map print_member (kv2 :: m)))
      with (print_member kv ++ "," ++ join "," (map print_member (kv2 :: m))).
    rewrite !length_append. cbn [String.length]. lia.
Qed.

(** The length of the text of a value is fuel enough to read it. *)
Lemma size_le_length (j : JSON.t) :
  printable j = true -> size j <= String.length (print j).
Proof.
  induction j as [ |b|lit|s|l IHl|m IHm] using json_ind'; intro Hp.
  - cbn. lia.
  - destruct b; cbn; lia.
  - discriminate Hp.
  - cbn. lia.
  - cbn [printable] in Hp. cbn [size print].
    rewrite !length_append. cbn [String.length].
    assert (HF : Forall (fun e => size e <= String.length (print e)) l).
    { rewrite forallb_forall in Hp. rewrite Forall_forall in IHl |- *.
      intros e He. apply IHl; [exact He | now apply Hp]. }
    pose proof (length_join_elements l HF). lia.
  - cbn [printable] in Hp. cbn [size print].
    change (map (fun kv => appendString (fst kv) ++ ":" ++ print (snd kv)) m)
      with (map print_member m).
    rewrite !length_append. cbn [String.length].
    assert (HF : Forall (fun kv => size (snd kv) <= String.length (print (snd kv))) m).
    { rewrite forallb_forall in Hp. rewrite Forall_forall in IHm |- *.
      intros kv Hkv. apply IHm; [exact Hkv|].
      specialize (Hp kv Hkv). now apply andb_prop in Hp as [_ Hp]. }
    pose proof (length_join_members m HF). lia.
Qed.

(** A printable value followed by blanks only is read back whole. *)
Lemma read_print (j : JSON.t) (blanks : string) :
  printable j = true ->
  skip_ws blanks = "" ->
  read (print j ++ blanks) = Some j.
Proof.
  intros Hp Hb. unfold read.
  rewrite (read_value_print j Hp).
  - now rewrite Hb.
  - rewrite length_append. pose proof (size_le_length j Hp). lia.
Qed.

(** ** The data model, there and back *)

Lemma traverse_map {A : Type} (f : JSON.t -> option A) (g : A -> JSON.t)
    (l : list A) :
  (forall a, f (g a) = Some a) -> traverse f (map g l) = Some l.
Proof.
  intro H. induction l as [|a l IHl]; [reflexivity|].
  cbn [map traverse]. now rewrite H, IHl.
Qed.

Lemma as_slice_of_slice {A : Type} (f : JSON.t -> option A) (g : A -> JSON.t)
    (s : slice A) :
  (forall a, f (g a) = Some a) -> as_slice f (Some (of_slice g s)) = Some s.
Proof.
  intro H. destruct s as [l|]; [|reflexivity].
  cbn [of_slice as_slice]. now rewrite traverse_map.
Qed.

Lemma QueryAction_there_and_back (a : QueryAction) :
  QueryAction_of_json (QueryAction_json a) = Some a.
Proof.
  destruct a as [n c args]. unfold QueryAction_json, QueryAction_of_json.
  cbn [member String.eqb Ascii.eqb Bool.eqb as_string
       QueryAction.Name QueryAction.Command QueryAction.Arguments].
  now rewrite as_slice_of_slice.
Qed.

Lemma QueryItem_there_and_back (i : QueryItem) :
  QueryItem_of_json (QueryItem_json i) = Some i.
Proof.
  destruct i as [id n d c ic acts]. unfold QueryItem_json, QueryItem_of_json.
  cbn [member String.eqb Ascii.eqb Bool.eqb as_string
       QueryItem.ID QueryItem.Name QueryItem.Description QueryItem.Completion
       QueryItem.Icon QueryItem.Actions].
  now rewrite (as_slice_of_slice _ _ _ QueryAction_there_and_back).
Qed.

Lemma QueryResult_there_and_back (r : QueryResult) :
  QueryResult_of_json (QueryResult_json r) = Some r.
Proof.
  destruct r as [items]. unfold QueryResult_json, QueryResult_of_json.
  cbn [member String.eqb Ascii.eqb Bool.eqb QueryResult.Items].
  now rewrite (as_slice_of_slice _ _ _ QueryItem_there_and_back).
Qed.

Lemma printable_of_slice {A : Type} (v : A -> bool) (g : A -> JSON.t)
    (s : slice A) :
  (forall a, v a = true -> printable (g a) = true) ->
  valid_slice v s = true -> printable (of_slice g s) = true.
Proof.
  intros H Hs. destruct s as [l|]; [|reflexivity].
  cbn [of_slice printable valid_slice] in *.
  induction l as [|a l IHl]; [reflexivity|].
  cbn [map forallb] in *. apply andb_prop in Hs as [Ha Hl].
  now rewrite (H a Ha), (IHl Hl).
Qed.

Lemma printable_QueryAction (a : QueryAction) :
  valid_QueryAction a = true -> printable (QueryAction_json a) = true.
Proof.
  unfold valid_QueryAction. intro H.
  apply andb_prop in H as [H H3]. apply andb_prop in H as [H1 H2].
  unfold QueryAction_json. cbn [printable forallb fst snd].
  rewrite H1, H2.
  rewrite (printable_of_slice ValidString JString _ (fun s Hs => Hs) H3).
  reflexivity.
Qed.

Lemma printable_QueryItem (i : QueryItem) :
  valid_QueryItem i = true -> printable (QueryItem_json i) = true.
Proof.
  unfold valid_QueryItem. intro H.
  apply andb_prop in H as [H H6]. apply andb_prop in H as [H H5].
  apply andb_prop in H as [H H4]. apply andb_prop in H as [H H3].
  apply andb_prop in H as [H1 H2].
  unfold QueryItem_json. cbn [printable forallb fst snd].
  rewrite H1, H2, H3, H4, H5.
  rewrite (printable_of_slice _ _ _ printable_QueryAction H6).
  reflexivity.
Qed.

Lemma printable_QueryResult (r : QueryResult) :
  valid_QueryResult r = true -> printable (QueryResult_json r) = true.
Proof.
  unfold valid_QueryResult. intro H.
  unfold QueryResult_json. cbn [printable forallb fst snd].
  rewrite (printable_of_slice _ _ _ printable_QueryItem H).
  reflexivity.
Qed.

(** C8, as the code has it (lines 86-107, 214-225, 415-423).  For every
    [QueryResult] whose strings are all valid UTF-8, reading the bytes
    [json.Marshal] produces gives back the same value: the same items in
    the same order, in each the same actions in the same order, every
    field equal, a nil slice still nil and an empty one still empty.  The
    same holds of the bytes [Encoder.Encode] writes, which end in a
    newline. *)
Theorem QueryResult_round_trip (r : QueryResult) :
  valid_QueryResult r = true ->
  decode_QueryResult (fst (json_Marshal (QueryResult_json r))) = Some r /\
  decode_QueryResult (print (QueryResult_json r) ++ newline) = Some r.
Proof.
  intro Hv. pose proof (printable_QueryResult r Hv) as Hp.
  unfold decode_QueryResult, json_Marshal. cbn [fst]. split.
  - rewrite <- (append_nil_r (print (QueryResult_json r))).
    rewrite (read_print _ "" Hp eq_refl).
    apply QueryResult_there_and_back.
  - rewrite (read_print _ newline Hp eq_refl).
    apply QueryResult_there_and_back.
Qed.

(** The result of the QUERY scenario of the specification. *)
Lemma QueryResult_round_trip_witness :
  decode_QueryResult (fst (json_Marshal (QueryResult_json good_result)))
    = Some good_result.
Proof.
  exact (proj1 (QueryResult_round_trip good_result eq_refl)).
Defined.

(** C8, as the claim has it, fails: [appendString] prints a byte that is
    not UTF-8 as the escape of U+FFFD, so the ID of one byte 0xFF comes
    back as the three bytes of U+FFFD. *)
Lemma QueryResult_invalid_utf8 :
  valid_QueryResult bad_result = false /\
  decode_QueryResult (fst (json_Marshal (QueryResult_json bad_result)))
    <> Some bad_result /\
  fst (json_Marshal (QueryResult_json bad_result)) =
    dq "{'items':[{'id':'\ufffd','name':'Open','description':'','completion':'','icon':'','actions':[]}]}".
Proof.
  split; [reflexivity|]. split; [|vm_compute; reflexivity].
  vm_compute. intro H. discriminate H.
Qed.

(** * Further properties of revision A *)

(** X5 (lines 206-213, 132-144): for each of the four lifecycle
    selectors [Run] exits with code 0 and leaves the process as it was:
    nothing written, nothing logged, the callback not called.  It needs
    neither an [Output] nor a [QueryCallback]. *)
Theorem RevA_Run_lifecycle (p : RevA.DefaultPlugin.t) (w : World) :
  In (selector w) ["INITIALIZE"; "FINALIZE"; "SETUPSESSION"; "TEARDOWNSESSION"] ->
  RevA.Run p w = (w, Exit 0%Z).
Proof.
  intro Hin.
  assert (Hr : RevA.Plugin.RunOp p (selector w) w = (w, Return None)).
  { cbn [RevA.Plugin.RunOp RevA.DefaultPlugin_Plugin].
    unfold RevA.DefaultPlugin.RunOp.
    destruct Hin as [E|[E|[E|[E|[]]]]]; rewrite <- E; reflexivity. }
  exact (Run_after_RunOp p w w None Hr).
Qed.

Lemma RevA_Run_lifecycle_witness :
  RevA.Run bare_plugin (launched "FINALIZE" "" Metadata.zero) =
    (launched "FINALIZE" "" Metadata.zero, Exit 0%Z).
Proof.
  apply RevA_Run_lifecycle. cbn. tauto.
Defined.

(** X6 (lines 203-205): NAME writes the bytes of [Meta.Name] as they
    are, not quoted, not escaped, no newline after them, and exits with
    code 0. *)
Theorem RevA_Run_name (p : RevA.DefaultPlugin.t) (w : World) :
  RevA.DefaultPlugin.Output p = Some os_Stdout ->
  selector w = "NAME" ->
  RevA.Run p w =
    (write_stdout (Metadata.Name (RevA.DefaultPlugin.Meta p)) w, Exit 0%Z).
Proof.
  intros Hout Hop.
  assert (Hr : RevA.Plugin.RunOp p (selector w) w =
               (write_stdout (Metadata.Name (RevA.DefaultPlugin.Meta p)) w,
                Return None)).
  { cbn [RevA.Plugin.RunOp RevA.DefaultPlugin_Plugin].
    unfold RevA.DefaultPlugin.RunOp. eval_selector Hop.
    rewrite Hout. reflexivity. }
  exact (Run_after_RunOp p w _ None Hr).
Qed.

Lemma RevA_Run_name_witness :
  let p := RevA.NewPlugin (dq "a'<b") "0.1" "a" "t" None in
  let w := launched "NAME" "" Metadata.zero in
  RevA.Run p w = (write_stdout (dq "a'<b") w, Exit 0%Z).
Proof.
  cbn zeta.
  exact (RevA_Run_name (RevA.NewPlugin (dq "a'<b") "0.1" "a" "t" None)
           (launched "NAME" "" Metadata.zero) eq_refl eq_refl).
Defined.

(** QUERY on revision A when the callback returns a result and no error,
    the standard output being the sink. *)
Lemma RevA_Run_query_text (p : RevA.DefaultPlugin.t)
    (cb : string -> M (QueryResult * option error))
    (w w1 : World) (res : QueryResult) :
  RevA.DefaultPlugin.QueryCallback p = Some cb ->
  RevA.DefaultPlugin.Output p = Some os_Stdout ->
  selector w = "QUERY" ->
  cb (query_text w) w = (w1, Return (res, None)) ->
  RevA.Run p w =
    (write_stdout (print (QueryResult_json res) ++ newline) w1, Exit 0%Z).
Proof.
  intros Hcb Hout Hop Hrun.
  assert (Hr : RevA.Plugin.RunOp p (selector w) w =
               (write_stdout (print (QueryResult_json res) ++ newline) w1,
                Return None)).
  { cbn [RevA.Plugin.RunOp RevA.DefaultPlugin_Plugin].
    unfold RevA.DefaultPlugin.RunOp. eval_selector Hop.
    rewrite (bind_Return _ _ w w _ (os_Getenv_query w)).
    unfold RevA.DefaultPlugin.Query. rewrite Hcb.
    rewrite (bind_Return _ _ w w1 _ Hrun). cbn [snd fst].
    unfold Encoder_Encode, json_Marshal. rewrite Hout. reflexivity. }
  exact (Run_after_RunOp p w _ None Hr).
Qed.

(** X7 (lines 214-225): when the callback answers the text of
    [ALBERT_QUERY] with a result and no error, QUERY writes the JSON text
    of that result followed by one newline, in the world the callback
    left, and exits with code 0; the callback is called once, with that
    text. *)
Theorem RevA_Run_query_success (p : RevA.DefaultPlugin.t)
    (cb : string -> M (QueryResult * option error))
    (w w1 : World) (res : QueryResult) :
  RevA.DefaultPlugin.QueryCallback p = Some cb ->
  RevA.DefaultPlugin.Output p = Some os_Stdout ->
  selector w = "QUERY" ->
  cb (query_text w) w = (w1, Return (res, None)) ->
  RevA.Run p w =
    (write_stdout (print (QueryResult_json res) ++ newline) w1, Exit 0%Z) /\
  stdout (fst (RevA.Run p w)) = stdout w1 ++ print (QueryResult_json res) ++ newline.
Proof.
  intros Hcb Hout Hop Hrun.
  rewrite (RevA_Run_query_text p cb w w1 res Hcb Hout Hop Hrun).
  split; reflexivity.
Qed.

Lemma RevA_Run_query_success_witness :
  let cb := fun _ : string => ret (good_result, None) in
  let p := RevA.NewPlugin "demo" "0.1" "a" "t" (Some cb) in
  let w := launched "QUERY" "open" Metadata.zero in
  RevA.Run p w =
    (write_stdout (print (QueryResult_json good_result) ++ newline) w, Exit 0%Z) /\
  stdout (fst (RevA.Run p w)) =
    stdout w ++ print (QueryResult_json good_result) ++ newline.
Proof.
  cbn zeta.
  exact (RevA_Run_query_success
           (RevA.NewPlugin "demo" "0.1" "a" "t"
              (Some (fun _ : string => ret (good_result, None))))
           (fun _ : string => ret (good_result, None))
           (launched "QUERY" "open" Metadata.zero)
           (launched "QUERY" "open" Metadata.zero)
           good_result eq_refl eq_refl eq_refl eq_refl).
Defined.





(** X10 (lines 198, 204): with a nil [Output], as in a plugin built as a
    struct literal, METADATA and NAME do not exit with a code: the call
    of [Write] through the nil interface panics, nothing written or
    logged. *)
Theorem RevA_Run_nil_Output (p : RevA.DefaultPlugin.t) (w : World) :
  RevA.DefaultPlugin.Output p = None ->
  selector w = "METADATA" \/ selector w = "NAME" ->
  RevA.Run p w = (w, Panic "invalid memory address or nil pointer dereference").
Proof.
  intros Hout Hop. unfold RevA.Run.
  rewrite (bind_Return _ _ w w _ (os_Getenv_op w)).
  cbn [RevA.Plugin.RunOp RevA.DefaultPlugin_Plugin].
  unfold RevA.DefaultPlugin.RunOp.
  destruct Hop as [Hop|Hop]; eval_selector Hop;
    unfold RevA.DefaultPlugin.Metadata, Encoder_Encode, json_Marshal;
    rewrite Hout; reflexivity.
Qed.

Lemma RevA_Run_nil_Output_witness :
  RevA.Run bare_plugin (launched "NAME" "" Metadata.zero) =
    (launched "NAME" "" Metadata.zero,
     Panic "invalid memory address or nil pointer dereference").
Proof.
  apply RevA_Run_nil_Output; [reflexivity | right; reflexivity].
Defined.

Lemma RunOp_query_error_witness :
  let e := errorString "no network" in
  let cb := fun _ : string => ret (QueryResult.zero, Some e) in
  let p := RevA.NewPlugin "demo" "0.1" "a" "t" (Some cb) in
  let w := launched "QUERY" "x" Metadata.zero in
  RevA.DefaultPlugin.RunOp p "QUERY" w = (w, Return (Some e)).
Proof.
  cbn zeta.
  exact (RunOp_query_error
           (RevA.NewPlugin "demo" "0.1" "a" "t"
              (Some (fun _ : string =>
                       ret (QueryResult.zero, Some (errorString "no network")))))
           _ (launched "QUERY" "x" Metadata.zero) _ QueryResult.zero
           (errorString "no network") eq_refl eq_refl).
Defined.

(** * Further properties of revisions B and C *)



Lemma good_text_eq : print (QueryResult_json good_result) = good_text.
Proof.
  vm_compute. reflexivity.
Qed.

(** QUERY on revision B with a Query hook registered. *)
Lemma RevB_Start_query_text (h : RevB.HookSet.t)
    (fn : string -> M (QueryResult * Z))
    (w w1 : World) (res : QueryResult) (code : Z) :
  RevB.HookSet.Query h = Some fn ->
  selector w = "QUERY" ->
  fn (query_text w) w = (w1, Return (res, code)) ->
  RevB.Start h w = (write_stdout (print (QueryResult_json res)) w1, Exit code).
Proof.
  intros Hh Hop Hfn. unfold RevB.Start.
  rewrite (bind_Return _ _ w w _ (os_Getenv_op w)). eval_selector Hop.
  rewrite (bind_Return _ _ w w _ (os_Getenv_query w)). rewrite Hh.
  rewrite (bind_Return _ _ w w1 _ Hfn). reflexivity.
Qed.



(** X14 (lines 467-514): in revision C too a hook registered for one of
    the six operations without argument is the one that runs: when it
    returns [c], [os.Exit] is called with [c] in the state the hook
    left. *)
Theorem RevC_Start_registered_hook (o : Op) (h : RevC.HookSet.t) (fn : M Z)
    (w w' : World) (c : Z) :
  RevC_hook h o = Some fn ->
  selector w = Op_name o ->
  fn w = (w', Return c) ->
  RevC.Start h w = (w', Exit c).
Proof.
  intros Hh Hop Hfn. unfold RevC.Start.
  rewrite (bind_Return _ _ w w _ (os_Getenv_op w)).
  destruct o; cbn [RevC_hook] in Hh; try discriminate Hh;
    eval_selector Hop; unfold RevB.exit_with; rewrite Hh;
    rewrite (bind_Return _ _ w w' c Hfn); reflexivity.
Qed.

Lemma RevC_Start_registered_hook_witness :
  let hook := fmt_Print "custom" ;;; ret 0%Z in
  let h := {| RevC.HookSet.Metadata := None; RevC.HookSet.Name := Some hook;
              RevC.HookSet.Initialize := None; RevC.HookSet.Finalize := None;
              RevC.HookSet.Setupsession := None;
              RevC.HookSet.Teardownsession := None;
              RevC.HookSet.Query := None |} in
  let w := launched "NAME" "" demo_metadata in
  RevC.Start h w = (write_stdout "custom" w, Exit 0%Z).
Proof.
  cbn zeta.
  eapply (RevC_Start_registered_hook NAME); reflexivity.
Defined.

Lemma RevC_Start_unknown_returns_witness :
  let w := launched "query" "" Metadata.zero in
  RevC.Start RevC.HookSet.zero w = (w, Return tt).
Proof.
  cbn zeta. apply RevC_Start_unknown_returns.
  cbn. intros [H|[H|[H|[H|[H|[H|[H|[]]]]]]]]; discriminate H.
Defined.

(** A Name hook and a Query hook of the author's, registered. *)
Lemma RevB_Start_keeps_with_hooks_witness :
  let w := launched "NAME" "" demo_metadata in
  RevB_registered custom_hooks NAME = true /\
  pluginMetadata (fst (RevB.Start custom_hooks w)) = demo_metadata.
Proof.
  cbn zeta. split; [reflexivity|].
  refine (RevB_Start_keeps_with_hooks custom_hooks _
            (launched "NAME" "" demo_metadata)).
  split.
  - intros fn Hin. cbn in Hin.
    destruct Hin as [H|[H|[H|[H|[H|[H|[]]]]]]]; try discriminate H.
    injection H as <-. intro x. reflexivity.
  - intros fn query H. injection H as <-. intro x. reflexivity.
Defined.

(** * The configuration phase *)

Lemma set_pluginMetadata_same (w : World) :
  set_pluginMetadata (pluginMetadata w) w = w.
Proof.
  destruct w; reflexivity.
Qed.

(** What a list of field setters does, in either revision: it stores a
    metadata with the [IID] found, and with the [Dependencies] found
    unless [SetDependencies] is among the calls; nothing else of the
    process changes. *)
Lemma setters_effect (call : SetterCall -> M unit) (calls : list SetterCall)
    (w : World) :
  call = RevB_call \/ call = RevC_call ->
  exists m : Metadata,
    sequence (map call calls) w = (set_pluginMetadata m w, Return tt) /\
    Metadata.IID m = Metadata.IID (pluginMetadata w) /\
    (forallb (fun c => negb (is_SetDependencies c)) calls = true ->
     Metadata.Dependencies m = Metadata.Dependencies (pluginMetadata w)).
Proof.
  intro Hcall. revert w.
  induction calls as [|c calls IH]; intro w.
  - exists (pluginMetadata w). cbn [map sequence].
    unfold ret. now rewrite set_pluginMetadata_same.
  - cbn [map sequence].
    assert (Hc : exists m1,
               call c w = (set_pluginMetadata m1 w, Return tt) /\
               Metadata.IID m1 = Metadata.IID (pluginMetadata w) /\
               (is_SetDependencies c = false ->
                Metadata.Dependencies m1 = Metadata.Dependencies (pluginMetadata w))).
    { destruct Hcall as [-> | ->]; destruct c as [n v a|t|d];
        eexists; (split; [reflexivity|]); split; try reflexivity;
        intro H; try discriminate H; reflexivity. }
    destruct Hc as [m1 [E1 [I1 D1]]].
    destruct (IH (set_pluginMetadata m1 w)) as [m [E [I D]]].
    exists m. rewrite (bind_Return _ _ w _ tt E1). rewrite E.
    split; [reflexivity|]. cbn [pluginMetadata set_pluginMetadata] in I, D.
    split; [congruence|].
    cbn [forallb]. intro H. apply andb_prop in H as [Hc Hl].
    apply negb_true_iff in Hc. rewrite (D Hl). now apply D1.
Qed.

(** X17 (lines 254, 385-400, 409-413): the three field setters never
    touch [IID].  After any sequence of them from the initial state, the
    default of METADATA prints a metadata whose [iid] is the protocol
    version, and exits with code 0. *)
Theorem RevB_setters_keep_IID (calls : list SetterCall) (h : RevB.HookSet.t)
    (w : World) :
  pluginMetadata w = RevB.pluginMetadata_init ->
  RevB.HookSet.Metadata h = None ->
  selector w = "METADATA" ->
  exists m : Metadata,
    (sequence (map RevB_call calls) ;;; RevB.Start h) w =
      (write_stdout (print (Metadata_json m)) (set_pluginMetadata m w),
       Exit 0%Z) /\
    Metadata.IID m = "org.albert.extension.external/v2.0".
Proof.
  intros Hinit Hh Hop.
  destruct (setters_effect RevB_call calls w (or_introl eq_refl))
    as [m [E [I _]]].
  exists m. rewrite (bind_Return _ _ w _ tt E).
  rewrite (RevB_Start_metadata h (set_pluginMetadata m w) Hh Hop).
  split; [reflexivity|]. now rewrite I, Hinit.
Qed.

Lemma RevB_setters_keep_IID_witness :
  let w := launched "METADATA" "" RevB.pluginMetadata_init in
  exists m : Metadata,
    (sequence (map RevB_call [CallSetTrigger "t"; CallSetInfo "demo" "0.1" "a"])
     ;;; RevB.Start RevB.HookSet.zero) w =
      (write_stdout (print (Metadata_json m)) (set_pluginMetadata m w),
       Exit 0%Z) /\
    Metadata.IID m = "org.albert.extension.external/v2.0".
Proof.
  cbn zeta.
  exact (RevB_setters_keep_IID [CallSetTrigger "t"; CallSetInfo "demo" "0.1" "a"]
           RevB.HookSet.zero (launched "METADATA" "" RevB.pluginMetadata_init)
           eq_refl eq_refl eq_refl).
Defined.

(** X18 (lines 254, 398-400): [Dependencies] starts as the nil slice and
    only [SetDependencies] (or [SetMetadata]) changes it.  After a
    sequence of the other field setters from the initial state, the
    default of METADATA prints the member ["dependencies":null], not an
    empty array. *)
Theorem RevB_dependencies_null (calls : list SetterCall) (h : RevB.HookSet.t)
    (w : World) :
  forallb (fun c => negb (is_SetDependencies c)) calls = true ->
  pluginMetadata w = RevB.pluginMetadata_init ->
  RevB.HookSet.Metadata h = None ->
  selector w = "METADATA" ->
  exists (w' : World) (before after : string),
    (sequence (map RevB_call calls) ;;; RevB.Start h) w = (w', Exit 0%Z) /\
    stdout w' = stdout w ++ before ++ dq "'dependencies':null" ++ after.
Proof.
  intros Hno Hinit Hh Hop.
  destruct (setters_effect RevB_call calls w (or_introl eq_refl))
    as [m [E [_ D]]].
  specialize (D Hno). rewrite Hinit in D. cbn in D.
  rewrite (bind_Return _ _ w _ tt E).
  rewrite (RevB_Start_metadata h (set_pluginMetadata m w) Hh Hop).
  unfold own_default. cbn [pluginMetadata set_pluginMetadata].
  rewrite print_Metadata_json, D.
  destruct print_dependencies as [_ ->].
  eexists.
  exists ("{" ++ appendString "iid" ++ ":" ++ appendString (Metadata.IID m) ++
          "," ++ appendString "name" ++ ":" ++ appendString (Metadata.Name m) ++
          "," ++ appendString "version" ++ ":" ++ appendString (Metadata.Version m) ++
          "," ++ appendString "author" ++ ":" ++ appendString (Metadata.Author m) ++
          ",").
  eexists. split; [reflexivity|].
  cbn [stdout write_stdout set_pluginMetadata].
  apply (f_equal2 append); [reflexivity|].
  rewrite !append_assoc.
  do 16 (apply (f_equal2 append); [reflexivity|]).
  change (appendString "dependencies") with (dq "'dependencies'").
  cbn [dq Ascii.eqb Bool.eqb append]. reflexivity.
Qed.

Lemma RevB_dependencies_null_witness :
  let w := launched "METADATA" "" RevB.pluginMetadata_init in
  exists (w' : World) (before after : string),
    (sequence (map RevB_call [CallSetInfo "demo" "0.1" "a"; CallSetTrigger "t"])
     ;;; RevB.Start RevB.HookSet.zero) w = (w', Exit 0%Z) /\
    stdout w' = stdout w ++ before ++ dq "'dependencies':null" ++ after.
Proof.
  cbn zeta.
  exact (RevB_dependencies_null [CallSetInfo "demo" "0.1" "a"; CallSetTrigger "t"]
           RevB.HookSet.zero (launched "METADATA" "" RevB.pluginMetadata_init)
           eq_refl eq_refl eq_refl eq_refl).
Defined.

(** X19 (lines 405-407): [SetMetadata] replaces the whole value, the
    [IID] included.  Whatever field setters ran before it, the default of
    METADATA then prints exactly the metadata handed to [SetMetadata]:
    the protocol version is not put back. *)
Theorem RevB_SetMetadata_overwrites (calls : list SetterCall) (m : Metadata)
    (h : RevB.HookSet.t) (w : World) :
  RevB.HookSet.Metadata h = None ->
  selector w = "METADATA" ->
  (sequence (map RevB_call calls) ;;; RevB.SetMetadata m ;;; RevB.Start h) w =
    (write_stdout (print (Metadata_json m)) (set_pluginMetadata m w), Exit 0%Z).
Proof.
  intros Hh Hop.
  destruct (setters_effect RevB_call calls w (or_introl eq_refl))
    as [m0 [E _]].
  rewrite (bind_Return _ _ w _ tt E). cbv beta.
  rewrite (bind_Return (RevB.SetMetadata m) _ (set_pluginMetadata m0 w)
             (set_pluginMetadata m w) tt eq_refl). cbv beta.
  exact (RevB_Start_metadata h (set_pluginMetadata m w) Hh Hop).
Qed.

Lemma RevB_SetMetadata_overwrites_witness :
  let m := {| Metadata.IID := ""; Metadata.Name := "demo";
              Metadata.Version := ""; Metadata.Author := "";
              Metadata.Dependencies := None; Metadata.Trigger := "" |} in
  let w := launched "METADATA" "" RevB.pluginMetadata_init in
  (sequence (map RevB_call [CallSetTrigger "t"]) ;;; RevB.SetMetadata m ;;;
   RevB.Start RevB.HookSet.zero) w =
    (write_stdout (print (Metadata_json m)) (set_pluginMetadata m w), Exit 0%Z).
Proof.
  cbn zeta.
  exact (RevB_SetMetadata_overwrites [CallSetTrigger "t"] _ RevB.HookSet.zero
           (launched "METADATA" "" RevB.pluginMetadata_init) eq_refl eq_refl).
Defined.

(** X20 (lines 385-400): the three field setters write disjoint fields.
    In whatever world, any two of them give the same result in either
    order, and a setter called twice leaves what the second call set. *)
Theorem RevB_setters_commute (n v a t t' : string) (d : slice string) (w : World) :
  (RevB.SetInfo n v a ;;; RevB.SetTrigger t) w =
    (RevB.SetTrigger t ;;; RevB.SetInfo n v a) w /\
  (RevB.SetInfo n v a ;;; RevB.SetDependencies d) w =
    (RevB.SetDependencies d ;;; RevB.SetInfo n v a) w /\
  (RevB.SetTrigger t ;;; RevB.SetDependencies d) w =
    (RevB.SetDependencies d ;;; RevB.SetTrigger t) w /\
  (RevB.SetTrigger t' ;;; RevB.SetTrigger t) w = RevB.SetTrigger t w.
Proof.
  repeat split.
Qed.

(** X21 (lines 438, 567-582, 591-595): revision C starts from
    [Metadata{}] and its field setters never touch [IID] either, so after
    any sequence of them the default of METADATA prints a metadata whose
    [iid] is the empty string: the protocol version reaches the output
    only through [SetMetadata]. *)
Theorem RevC_setters_leave_IID_empty (calls : list SetterCall)
    (h : RevC.HookSet.t) (w : World) :
  pluginMetadata w = RevC.pluginMetadata_init ->
  RevC.HookSet.Metadata h = None ->
  selector w = "METADATA" ->
  exists m : Metadata,
    (sequence (map RevC_call calls) ;;; RevC.Start h) w =
      (write_stdout (print (Metadata_json m)) (set_pluginMetadata m w),
       Exit 0%Z) /\
    Metadata.IID m = "".
Proof.
  intros Hinit Hh Hop.
  destruct (setters_effect RevC_call calls w (or_intror eq_refl))
    as [m [E [I _]]].
  exists m. rewrite (bind_Return _ _ w _ tt E). cbv beta.
  split; [|now rewrite I, Hinit].
  unfold RevC.Start.
  rewrite (bind_Return _ _ _ _ _ (os_Getenv_op (set_pluginMetadata m w))).
  change (selector (set_pluginMetadata m w)) with (selector w).
  eval_selector Hop. unfold RevB.exit_with. rewrite Hh. reflexivity.
Qed.

Lemma RevC_setters_leave_IID_empty_witness :
  let w := launched "METADATA" "" RevC.pluginMetadata_init in
  exists m : Metadata,
    (sequence (map RevC_call [CallSetInfo "demo" "0.1" "a"])
     ;;; RevC.Start RevC.HookSet.zero) w =
      (write_stdout (print (Metadata_json m)) (set_pluginMetadata m w),
       Exit 0%Z) /\
    Metadata.IID m = "".
Proof.
  cbn zeta.
  exact (RevC_setters_leave_IID_empty [CallSetInfo "demo" "0.1" "a"]
           RevC.HookSet.zero (launched "METADATA" "" RevC.pluginMetadata_init)
           eq_refl eq_refl eq_refl).
Defined.

(** X22 (lines 80-82, 187-190, 227-230): the two errors the package
    builds are [AlbertError]s with [Code] 255 that wrap the error of
    [fmt.Errorf]; their [Error()] is the message of the wrapped error,
    the selector or the query text between apostrophes; the two messages
    differ whatever these are, so the diagnostics tell an unknown
    operation from a missing query behaviour. *)
Theorem package_errors (p : RevA.DefaultPlugin.t) (op query : string) (w : World) :
  ~ In op recognized ->
  RevA.DefaultPlugin.QueryCallback p = None ->
  let unknown := "unknown albert op '" ++ op ++ "'" in
  let missing := "no behavior defined for query '" ++ query ++ "'" in
  let e1 := dyn_AlbertError (Some (errorString unknown)) 255%Z in
  let e2 := dyn_AlbertError (Some (errorString missing)) 255%Z in
  RevA.DefaultPlugin.RunOp p op w = (w, Return (Some e1)) /\
  RevA.DefaultPlugin.Query p query w = (w, Return (QueryResult.zero, Some e2)) /\
  Error e1 = Some unknown /\
  Error e2 = Some missing /\
  code_of e1 = 255%Z /\ code_of e2 = 255%Z /\
  unknown <> missing.
Proof.
  intros Hn Hcb. cbn zeta.
  split; [exact (RevA_RunOp_unknown p op w Hn)|].
  split; [unfold RevA.DefaultPlugin.Query; rewrite Hcb; reflexivity|].
  repeat split. cbn. intro H. discriminate H.
Qed.

Lemma package_errors_witness :
  let w := launched "" "" Metadata.zero in
  RevA.DefaultPlugin.RunOp bare_plugin "" w =
    (w, Return (Some (dyn_AlbertError
                        (Some (errorString "unknown albert op ''")) 255%Z))) /\
  RevA.DefaultPlugin.Query bare_plugin "x" w =
    (w, Return (QueryResult.zero,
                Some (dyn_AlbertError
                        (Some (errorString "no behavior defined for query 'x'"))
                        255%Z))).
Proof.
  cbn zeta.
  assert (Hn : ~ In "" recognized).
  { cbn. intros [H|[H|[H|[H|[H|[H|[H|[]]]]]]]]; discriminate H. }
  destruct (package_errors bare_plugin "" "x" (launched "" "" Metadata.zero)
              Hn eq_refl) as (H1 & H2 & _).
  split; [exact H1 | exact H2].
Defined.

(** An [AlbertError] built without an [Err] has no message to give:
    [Error()] dereferences nil. *)
Lemma Error_nil (code : Z) : Error (dyn_AlbertError None code) = None.
Proof.
  reflexivity.
Qed.

(** * Further properties of the wire format *)

Lemma Metadata_there_and_back (m : Metadata) :
  Metadata_of_json (Metadata_json m) = Some m.
Proof.
  destruct m as [i n v a d t]. unfold Metadata_json, Metadata_of_json.
  cbn [member String.eqb Ascii.eqb Bool.eqb as_string
       Metadata.IID Metadata.Name Metadata.Version Metadata.Author
       Metadata.Dependencies Metadata.Trigger].
  now rewrite as_slice_of_slice.
Qed.

Lemma printable_Metadata (m : Metadata) :
  valid_Metadata m = true -> printable (Metadata_json m) = true.
Proof.
  unfold valid_Metadata. intro H.
  apply andb_prop in H as [H H6]. apply andb_prop in H as [H H5].
  apply andb_prop in H as [H H4]. apply andb_prop in H as [H H3].
  apply andb_prop in H as [H1 H2].
  unfold Metadata_json. cbn [printable forallb fst snd].
  rewrite H1, H2, H3, H4, H6.
  rewrite (printable_of_slice ValidString JString _ (fun s Hs => Hs) H5).
  reflexivity.
Qed.

Lemma decode_Metadata_print (m : Metadata) (blanks : string) :
  valid_Metadata m = true ->
  skip_ws blanks = "" ->
  decode_Metadata (print (Metadata_json m) ++ blanks) = Some m.
Proof.
  intros Hv Hb. unfold decode_Metadata.
  rewrite (read_print _ blanks (printable_Metadata m Hv) Hb).
  apply Metadata_there_and_back.
Qed.

Lemma decode_QueryResult_print (r : QueryResult) (blanks : string) :
  valid_QueryResult r = true ->
  skip_ws blanks = "" ->
  decode_QueryResult (print (QueryResult_json r) ++ blanks) = Some r.
Proof.
  intros Hv Hb. unfold decode_QueryResult.
  rewrite (read_print _ blanks (printable_QueryResult r Hv) Hb).
  apply QueryResult_there_and_back.
Qed.

(** X23 (lines 115-122, 198, 409-413): a [Metadata] whose strings are
    valid UTF-8 is read back from its wire text field for field, with
    [Dependencies] nil when it was nil and empty when it was empty; the
    newline [Encode] adds changes nothing. *)
Theorem Metadata_round_trip (m : Metadata) :
  valid_Metadata m = true ->
  decode_Metadata (fst (json_Marshal (Metadata_json m))) = Some m /\
  decode_Metadata (print (Metadata_json m) ++ newline) = Some m.
Proof.
  intro Hv. unfold json_Marshal. cbn [fst]. split.
  - rewrite <- (append_nil_r (print (Metadata_json m))).
    exact (decode_Metadata_print m "" Hv eq_refl).
  - exact (decode_Metadata_print m newline Hv eq_refl).
Qed.

Lemma Metadata_round_trip_witness :
  decode_Metadata (fst (json_Marshal (Metadata_json demo_metadata)))
    = Some demo_metadata /\
  decode_Metadata (print (Metadata_json demo_metadata) ++ newline)
    = Some demo_metadata.
Proof.
  exact (Metadata_round_trip demo_metadata eq_refl).
Defined.

Lemma decode_print_QueryResult (r : QueryResult) :
  valid_QueryResult r = true ->
  decode_QueryResult (print (QueryResult_json r)) = Some r.
Proof.
  intro Hv. rewrite <- (append_nil_r (print (QueryResult_json r))).
  exact (decode_QueryResult_print r "" Hv eq_refl).
Qed.

(** X24 (lines 86-107): two results whose strings are valid UTF-8 and
    whose wire texts are equal are the same result: the encoding loses
    nothing, neither the difference between a nil and an empty slice nor
    the order of items, actions and arguments. *)
Theorem QueryResult_wire_injective (r1 r2 : QueryResult) :
  valid_QueryResult r1 = true ->
  valid_QueryResult r2 = true ->
  print (QueryResult_json r1) = print (QueryResult_json r2) ->
  r1 = r2.
Proof.
  intros H1 H2 E.
  pose proof (decode_print_QueryResult r1 H1) as D1.
  pose proof (decode_print_QueryResult r2 H2) as D2.
  rewrite E, D2 in D1. now injection D1.
Qed.

Lemma QueryResult_wire_injective_witness :
  good_result = good_result.
Proof.
  exact (QueryResult_wire_injective good_result good_result
           eq_refl eq_refl eq_refl).
Defined.

(** ** Bytes that reach the wire *)













(** DEL (0x7F) and the control characters of U+0080 to U+009F are not
    among the bytes the encoder escapes: they reach the wire as they
    are. *)
Lemma appendString_high_controls :
  appendString (String (chr 127) "") =
    String quote (String (chr 127) (String quote "")) /\
  appendString (String (chr 194) (String (chr 133) "")) =
    String quote (String (chr 194) (String (chr 133) (String quote ""))) /\
  wire_safe (chr 127) = true.
Proof.
  repeat split.
Qed.

(** X26 (lines 86-122): a string of printable ASCII without quote,
    backslash, [<], [>] and [&] is valid and is written as it is between
    two quotes. *)
Theorem appendString_verbatim (s : string) :
  all_bytes htmlSafe s = true ->
  appendString s = String quote (s ++ String quote "") /\
  ValidString s = true.
Proof.
  intro H. unfold appendString, ValidString.
  assert (He : escape_from 0 true s = s /\ valid_from 0 s = true).
  { induction s as [|c s IH]; [split; reflexivity|].
    cbn [all_bytes] in H. apply andb_prop in H as [Hc Hs].
    destruct (IH Hs) as [IH1 IH2].
    assert (Ha : (byte c <? 128)%N = true).
    { unfold htmlSafe in Hc. cbv zeta in Hc.
      apply andb_prop in Hc as [Hc _]. now apply andb_prop in Hc as [_ Hc]. }
    cbn [escape_from valid_from]. rewrite Ha, Hc, IH1. now split. }
  destruct He as [-> ->]. now split.
Qed.

Lemma appendString_verbatim_witness :
  appendString "org.albert.extension.external/v2.0" =
    String quote ("org.albert.extension.external/v2.0" ++ String quote "") /\
  ValidString "org.albert.extension.external/v2.0" = true.
Proof.
  exact (appendString_verbatim "org.albert.extension.external/v2.0" eq_refl).
Defined.

(** X27 (lines 110-112, 380-382, 562-564; albert_test.go lines 5-8): for
    a command built by [exec.Command(name, arg...)], as the examples of
    the package do, the constructor of revisions A and B never panics
    and the action has exactly [arg] as [Arguments], a non-nil slice also
    when there is no argument; the constructor of revision C gives
    [name] followed by [arg]. *)
Theorem NewQueryAction_exec_Command (found : option string)
    (display name : string) (arg : list string) :
  let cmd := exec_Command found name arg in
  let want := {| QueryAction.Name := display;
                 QueryAction.Command := Cmd.Path cmd;
                 QueryAction.Arguments := Some arg |} in
  RevA.NewQueryAction display cmd = Some want /\
  RevB.NewQueryAction display cmd = Some want /\
  QueryAction.Arguments (RevC.NewQueryAction display cmd) = Some (name :: arg) /\
  print (of_slice JString (QueryAction.Arguments want)) <> "null".
Proof.
  cbn zeta. repeat split.
  cbn [print of_slice QueryAction.Arguments]. intro H. discriminate H.
Qed.

(** * What the launcher reads *)

(** X28 (lines 132-144, 196-202, 214-225): end to end on revision A,
    with the standard output as sink and empty before the dispatch.  What
    a reader finds there after METADATA is the metadata the plugin was
    configured with, and after a QUERY that the callback answered without
    error it is the result the callback returned, provided the strings
    are valid UTF-8. *)
Theorem RevA_launcher_reads_back (p : RevA.DefaultPlugin.t) (w : World) :
  RevA.DefaultPlugin.Output p = Some os_Stdout ->
  stdout w = "" ->
  (selector w = "METADATA" ->
   valid_Metadata (RevA.DefaultPlugin.Meta p) = true ->
   decode_Metadata (stdout (fst (RevA.Run p w)))
     = Some (RevA.DefaultPlugin.Meta p)) /\
  (forall (cb : string -> M (QueryResult * option error)) (w1 : World)
          (res : QueryResult),
     selector w = "QUERY" ->
     RevA.DefaultPlugin.QueryCallback p = Some cb ->
     cb (query_text w) w = (w1, Return (res, None)) ->
     stdout w1 = "" ->
     valid_QueryResult res = true ->
     decode_QueryResult (stdout (fst (RevA.Run p w))) = Some res).
Proof.
  intros Hout Hempty. split.
  - intros Hop Hv. rewrite (RevA_Run_metadata p w Hout Hop).
    cbn [fst stdout write_stdout]. rewrite Hempty. cbn [append].
    exact (decode_Metadata_print _ newline Hv eq_refl).
  - intros cb w1 res Hop Hcb Hrun Hempty1 Hv.
    rewrite (RevA_Run_query_text p cb w w1 res Hcb Hout Hop Hrun).
    cbn [fst stdout write_stdout]. rewrite Hempty1. cbn [append].
    exact (decode_QueryResult_print res newline Hv eq_refl).
Qed.

Lemma RevA_launcher_reads_back_witness :
  decode_Metadata
    (stdout (fst (RevA.Run (RevA.NewPlugin "demo" "0.1" "a" "t" None)
                           (launched "METADATA" "" Metadata.zero))))
    = Some demo_metadata.
Proof.
  exact (proj1 (RevA_launcher_reads_back
                  (RevA.NewPlugin "demo" "0.1" "a" "t" None)
                  (launched "METADATA" "" Metadata.zero) eq_refl eq_refl)
               eq_refl eq_refl).
Defined.

(** X29 (lines 281-342, 409-423): end to end on revision B, the standard
    output empty before the dispatch.  After METADATA with no hook the
    reader finds the package variable; after QUERY with a hook it finds
    the result the hook returned, whatever exit code the hook chose,
    provided the strings are valid UTF-8. *)
Theorem RevB_launcher_reads_back (h : RevB.HookSet.t) (w : World) :
  stdout w = "" ->
  (selector w = "METADATA" ->
   RevB.HookSet.Metadata h = None ->
   valid_Metadata (pluginMetadata w) = true ->
   decode_Metadata (stdout (fst (RevB.Start h w))) = Some (pluginMetadata w)) /\
  (forall (fn : string -> M (QueryResult * Z)) (w1 : World)
          (res : QueryResult) (code : Z),
     selector w = "QUERY" ->
     RevB.HookSet.Query h = Some fn ->
     fn (query_text w) w = (w1, Return (res, code)) ->
     stdout w1 = "" ->
     valid_QueryResult res = true ->
     decode_QueryResult (stdout (fst (RevB.Start h w))) = Some res).
Proof.
  intro Hempty. split.
  - intros Hop Hh Hv. rewrite (RevB_Start_metadata h w Hh Hop).
    cbn [own_default fst stdout write_stdout]. rewrite Hempty. cbn [append].
    rewrite <- (append_nil_r (print _)).
    exact (decode_Metadata_print _ "" Hv eq_refl).
  - intros fn w1 res code Hop Hh Hfn Hempty1 Hv.
    rewrite (RevB_Start_query_text h fn w w1 res code Hh Hop Hfn).
    cbn [fst stdout write_stdout]. rewrite Hempty1. cbn [append].
    rewrite <- (append_nil_r (print _)).
    exact (decode_QueryResult_print res "" Hv eq_refl).
Qed.

Lemma RevB_launcher_reads_back_witness :
  decode_Metadata
    (stdout (fst (RevB.Start RevB.HookSet.zero
                             (launched "METADATA" "" demo_metadata))))
    = Some demo_metadata.
Proof.
  exact (proj1 (RevB_launcher_reads_back RevB.HookSet.zero
                  (launched "METADATA" "" demo_metadata) eq_refl)
               eq_refl eq_refl eq_refl).
Defined.
